(** * OpInfo accessors of the ORT flatbuffers schema (fbs/OpInfo.py)

    Shallow embedding of the generated Python accessors for the [OpInfo]
    table together with the parts of the flatbuffers Python runtime they
    call: [encode.Get] (struct.unpack_from), [number_types.enforce_number],
    [table.Table] (Offset, Vector, VectorLen, Indirect, Get),
    [util.BufferHasIdentifier] and the [builder.Builder] operations used by
    the generated writers.

    Bytes are 8-bit [Z] values; a buffer is a [list Z].  Python exceptions
    are the constructors of [py_error]. *)

From Stdlib Require Import ZArith List Bool Lia.
Import ListNotations.
Open Scope Z_scope.

(** ** Python errors and results *)

Inductive py_error : Type :=
| TypeError                (* number_types.enforce_number *)
| StructError              (* struct.unpack_from / struct.pack_into *)
| IndexError               (* list index assignment out of range *)
| OffsetArithmeticError    (* builder.OffsetArithmeticError *)
| BuilderSizeError         (* builder.BuilderSizeError *)
| IsNestedError            (* builder.IsNestedError *)
| IsNotNestedError.        (* builder.IsNotNestedError *)

Inductive result (A : Type) : Type :=
| Ok : A -> result A
| Err : py_error -> result A.
Arguments Ok {A} _.
Arguments Err {A} _.

(** ** Little-endian byte encoding (struct '<H', '<I', '<i') *)

(** [le_encode w v]: the [w] bytes that [struct.pack] writes for [v]
    (two's complement for negative [v]). *)
Fixpoint le_encode (w : nat) (v : Z) : list Z :=
  match w with
  | O => []
  | S w' => Z.land v 255 :: le_encode w' (Z.shiftr v 8)
  end.

(** [le_decode bs]: the unsigned value of little-endian bytes [bs]. *)
Fixpoint le_decode (bs : list Z) : Z :=
  match bs with
  | [] => 0
  | b :: r => b + 256 * le_decode r
  end.

(** The packers of [flatbuffers.packer] used here. *)
Inductive packer : Type := P_uint8 | P_voffset | P_uoffset | P_soffset.

Definition bytewidth (k : packer) : nat :=
  match k with P_uint8 => 1 | P_voffset => 2 | P_uoffset => 4 | P_soffset => 4 end%nat.

(** Value of the unpacked bytes: ['<i'] is signed, the others unsigned. *)
Definition unpack_value (k : packer) (bs : list Z) : Z :=
  let u := le_decode bs in
  match k with
  | P_soffset => if u >=? 2 ^ 31 then u - 2 ^ 32 else u
  | _ => u
  end.

Definition pmin (k : packer) : Z :=
  match k with P_soffset => - 2 ^ 31 | _ => 0 end.
Definition pmax (k : packer) : Z :=
  match k with
  | P_uint8 => 2 ^ 8 - 1 | P_voffset => 2 ^ 16 - 1
  | P_uoffset => 2 ^ 32 - 1 | P_soffset => 2 ^ 31 - 1
  end.

Definition blen (buf : list Z) : Z := Z.of_nat (length buf).

(** [struct.unpack_from(fmt, buf, off)] (CPython >= 3.7): a negative offset
    counts from the end; too few bytes raise [struct.error]. *)
Definition unpack_from (w : nat) (buf : list Z) (off : Z) : result (list Z) :=
  let len := blen buf in
  let off' := if off <? 0 then off + len else off in
  if off' <? 0 then Err StructError
  else if len - off' <? Z.of_nat w then Err StructError
  else Ok (firstn w (skipn (Z.to_nat off') buf)).

(** ** Python slicing [buf[s:e]] *)

Definition py_norm (len i : Z) : Z :=
  if i <? 0 then Z.max 0 (i + len) else Z.min i len.

Definition py_slice (buf : list Z) (s e : Z) : list Z :=
  let len := blen buf in
  let s' := py_norm len s in
  let e' := py_norm len e in
  firstn (Z.to_nat (e' - s')) (skipn (Z.to_nat s') buf).

Fixpoint bytes_eqb (a b : list Z) : bool :=
  match a, b with
  | [], [] => true
  | x :: a', y :: b' => (x =? y) && bytes_eqb a' b'
  | _, _ => false
  end.

(** ** util.py *)

Definition FILE_IDENTIFIER_LENGTH : Z := 4.

(** [util.GetBufferIdentifier(buf, offset, size_prefixed)] *)
Definition GetBufferIdentifier (buf : list Z) (offset : Z) (size_prefixed : bool)
  : list Z :=
  let offset := if size_prefixed then offset + 4 else offset in
  let offset := offset + 4 in
  let end_ := offset + FILE_IDENTIFIER_LENGTH in
  py_slice buf offset end_.

(** [util.BufferHasIdentifier(buf, offset, file_identifier, size_prefixed)] *)
Definition BufferHasIdentifier (buf : list Z) (offset : Z) (file_identifier : list Z)
  (size_prefixed : bool) : bool :=
  let got := GetBufferIdentifier buf offset size_prefixed in
  bytes_eqb file_identifier got.

(** ** number_types.enforce_number *)

Definition valid_number (k : packer) (n : Z) : bool :=
  (pmin k <=? n) && (n <=? pmax k).

(** ** The reading side: a state monad over the bound buffer

    A [Table] view holds a reference to the buffer it was built on; every
    view of one reading session (the root view and the views of nested
    tables, bound with [obj.Init(self._tab.Bytes, x)]) shares that one
    buffer, which is the state of [RM]. *)

Definition RM (A : Type) : Type := list Z -> result A * list Z.

Definition rret {A} (a : A) : RM A := fun buf => (Ok a, buf).
Definition rbind {A B} (m : RM A) (f : A -> RM B) : RM B :=
  fun buf => match m buf with
             | (Ok a, buf') => f a buf'
             | (Err e, buf') => (Err e, buf')
             end.
Definition rfail {A} (e : py_error) : RM A := fun buf => (Err e, buf).

Declare Scope rm_scope.
Notation "x <- m ;; k" := (rbind m (fun x => k))
  (at level 61, m at next level, right associativity) : rm_scope.
Notation "m ;;; k" := (rbind m (fun _ => k))
  (at level 61, right associativity) : rm_scope.
Local Open Scope rm_scope.

(** [encode.Get(packer_type, buf, head)] *)
Definition encode_Get (k : packer) (head : Z) : RM Z :=
  fun buf => match unpack_from (bytewidth k) buf head with
             | Ok bs => (Ok (unpack_value k bs), buf)
             | Err e => (Err e, buf)
             end.

(** [N.enforce_number(n, flags)] *)
Definition enforce_number (k : packer) (n : Z) : RM unit :=
  if valid_number k n then rret tt else rfail TypeError.

(** [table.Table]: the view; [Bytes] is the state of [RM]. *)
Record Table : Type := mkTable { Pos : Z }.

(** [Table.__init__(buf, pos)] *)
Definition Table_init (pos : Z) : RM Table :=
  enforce_number P_uoffset pos ;;; rret (mkTable pos).

(** [Table.Get(flags, off)] *)
Definition Table_Get (t : Table) (k : packer) (off : Z) : RM Z :=
  enforce_number P_uoffset off ;;; encode_Get k off.

(** [Table.Offset(vtableOffset)] *)
Definition Table_Offset (t : Table) (vtableOffset : Z) : RM Z :=
  so <- Table_Get t P_soffset (Pos t) ;;
  let vtable := Pos t - so in
  vtableEnd <- Table_Get t P_voffset vtable ;;
  if vtableOffset <? vtableEnd then Table_Get t P_voffset (vtable + vtableOffset)
  else rret 0.

(** [Table.Indirect(off)] *)
Definition Table_Indirect (t : Table) (off : Z) : RM Z :=
  enforce_number P_uoffset off ;;;
  v <- encode_Get P_uoffset off ;;
  rret (off + v).

(** [Table.VectorLen(off)] *)
Definition Table_VectorLen (t : Table) (off : Z) : RM Z :=
  enforce_number P_uoffset off ;;;
  let off := off + Pos t in
  a <- encode_Get P_uoffset off ;;
  let off := off + a in
  encode_Get P_uoffset off.

(** [Table.Vector(off)] *)
Definition Table_Vector (t : Table) (off : Z) : RM Z :=
  enforce_number P_uoffset off ;;;
  let off := off + Pos t in
  a <- Table_Get t P_uoffset off ;;
  let x := off + a in
  rret (x + 4).

(** ** fbs/OpInfo.py, reading side *)

(** An [OpInfo] object is its [_tab]; so is an [OpIdKernelTypeStrArgsEntry]. *)
Definition OpInfo : Type := Table.
Definition OpIdKernelTypeStrArgsEntry : Type := Table.

(** [OpInfo.Init(buf, pos)] *)
Definition OpInfo_Init (pos : Z) : RM OpInfo := Table_init pos.

(** [OpInfo.GetRootAsOpInfo(buf, offset)] *)
Definition GetRootAsOpInfo (offset : Z) : RM OpInfo :=
  n <- encode_Get P_uoffset offset ;;
  OpInfo_Init (n + offset).

(** [OpInfo.OpInfoBufferHasIdentifier(buf, offset, size_prefixed)] *)
Definition ORTM : list Z := [79; 82; 84; 77].

Definition OpInfoBufferHasIdentifier (buf : list Z) (offset : Z)
  (size_prefixed : bool) : bool :=
  BufferHasIdentifier buf offset ORTM size_prefixed.

(** [OpInfo.OpKernelTypeStrArgs(j)] *)
Definition OpKernelTypeStrArgs (self : OpInfo) (j : Z) : RM (option OpIdKernelTypeStrArgsEntry) :=
  o <- Table_Offset self 4 ;;
  if negb (o =? 0) then
    x <- Table_Vector self o ;;
    let x := x + j * 4 in
    x <- Table_Indirect self x ;;
    obj <- Table_init x ;;
    rret (Some obj)
  else rret None.

(** [OpInfo.OpKernelTypeStrArgsLength()] *)
Definition OpKernelTypeStrArgsLength (self : OpInfo) : RM Z :=
  o <- Table_Offset self 4 ;;
  if negb (o =? 0) then Table_VectorLen self o else rret 0.

(** [OpInfo.OpKernelTypeStrArgsIsNone()] *)
Definition OpKernelTypeStrArgsIsNone (self : OpInfo) : RM bool :=
  o <- Table_Offset self 4 ;;
  rret (o =? 0).

(** Run a reader on a buffer and keep its result. *)
Definition run {A} (m : RM A) (buf : list Z) : result A := fst (m buf).

(** ** builder.Builder

    The builder grows its bytearray back to front; [b_bytes] is the used
    part [Bytes[head:]] (so [Offset() = len(Bytes) - head] is its length).
    The unused front part is zeros and only its size depends on the
    growth strategy: [growByteBuffer] doubles up to [MAX_BUFFER_SIZE] and
    raises [BuilderSizeError] there, so [Prep] fails exactly when the used
    part would exceed [MAX_BUFFER_SIZE].  [current_vtable] is [b_vtable],
    the dedup dictionary [vtables] an association list (keys are inserted
    only when absent, so the first match is the dictionary's entry).
    [forceDefaults] is [b_forceDefaults], False in a new [Builder]. *)

Record Builder : Type := mkBuilder {
  b_bytes : list Z;
  b_vtable : option (list Z);
  b_objectEnd : Z;
  b_minalign : Z;
  b_vtables : list (list Z * Z);
  b_nested : bool;
  b_forceDefaults : bool;
}.

Definition MAX_BUFFER_SIZE : Z := 2 ^ 31.
Definition VtableMetadataFields : Z := 2.

(** [Builder(initialSize)] *)
Definition new_Builder : Builder := mkBuilder [] None 0 1 [] false false.

Definition BM (A : Type) : Type := Builder -> result (A * Builder).
Definition bret {A} (a : A) : BM A := fun st => Ok (a, st).
Definition bbind {A B} (m : BM A) (f : A -> BM B) : BM B :=
  fun st => match m st with Ok (a, st') => f a st' | Err e => Err e end.
Definition bfail {A} (e : py_error) : BM A := fun _ => Err e.
Definition bget : BM Builder := fun st => Ok (st, st).
Definition bput (st : Builder) : BM unit := fun _ => Ok (tt, st).

Declare Scope bm_scope.
Notation "x <-- m ;; k" := (bbind m (fun x => k))
  (at level 61, m at next level, right associativity) : bm_scope.
Notation "m ;;;; k" := (bbind m (fun _ => k))
  (at level 61, right associativity) : bm_scope.
Local Open Scope bm_scope.

Definition with_bytes (st : Builder) (bs : list Z) : Builder :=
  mkBuilder bs (b_vtable st) (b_objectEnd st) (b_minalign st) (b_vtables st) (b_nested st)
            (b_forceDefaults st).

(** [Builder.Offset()] *)
Definition Offset (st : Builder) : Z := blen (b_bytes st).

(** [Builder.Prep(size, additionalBytes)] *)
Definition Prep (size additionalBytes : Z) : BM unit := fun st =>
  let minalign := if size >? b_minalign st then size else b_minalign st in
  let alignSize := Z.land (Z.lnot (Offset st + additionalBytes) + 1) (size - 1) in
  if MAX_BUFFER_SIZE <? Offset st + alignSize + size + additionalBytes
  then Err BuilderSizeError
  else Ok (tt, mkBuilder (repeat 0 (Z.to_nat alignSize) ++ b_bytes st)
                         (b_vtable st) (b_objectEnd st) minalign
                         (b_vtables st) (b_nested st) (b_forceDefaults st)).

(** [Builder.Place(x, flags)]: [enforce_number], then [head -= bytewidth]
    and [encode.Write] at the new head. *)
Definition Place (k : packer) (x : Z) : BM unit := fun st =>
  if valid_number k x
  then Ok (tt, with_bytes st (le_encode (bytewidth k) x ++ b_bytes st))
  else Err TypeError.

(** [Builder.Prepend(flags, off)] for [PrependVOffsetT] and friends. *)
Definition Prepend (k : packer) (x : Z) : BM unit :=
  Prep (Z.of_nat (bytewidth k)) 0 ;;;; Place k x.

Definition PrependVOffsetT (x : Z) : BM unit := Prepend P_voffset x.

(** [Builder.PrependUOffsetTRelative(off)] *)
Definition PrependUOffsetTRelative (off : Z) : BM unit :=
  Prep 4 0 ;;;;
  st <-- bget ;;
  if negb (off <=? Offset st) then bfail OffsetArithmeticError
  else Place P_uoffset (Offset st - off + 4).

(** [Builder.PrependSOffsetTRelative(off)] *)
Definition PrependSOffsetTRelative (off : Z) : BM unit :=
  Prep 4 0 ;;;;
  st <-- bget ;;
  if negb (off <=? Offset st) then bfail OffsetArithmeticError
  else Place P_soffset (Offset st - off + 4).

Definition assertNested : BM unit :=
  st <-- bget ;; if b_nested st then bret tt else bfail IsNotNestedError.
Definition assertNotNested : BM unit :=
  st <-- bget ;; if b_nested st then bfail IsNestedError else bret tt.

(** [Builder.StartObject(numfields)] *)
Definition StartObject (numfields : nat) : BM unit :=
  assertNotNested ;;;;
  st <-- bget ;;
  bput (mkBuilder (b_bytes st) (Some (repeat 0 numfields)) (Offset st)
                  (b_minalign st) (b_vtables st) true (b_forceDefaults st)).

(** [Builder.Slot(slotnum)]: [self.current_vtable[slotnum] = self.Offset()] *)
Definition Slot (slotnum : nat) : BM unit :=
  assertNested ;;;;
  st <-- bget ;;
  match b_vtable st with
  | None => bfail TypeError
  | Some vt =>
      if (slotnum <? length vt)%nat then
        bput (mkBuilder (b_bytes st)
                (Some (firstn slotnum vt ++ Offset st :: skipn (S slotnum) vt))
                (b_objectEnd st) (b_minalign st) (b_vtables st) (b_nested st)
                (b_forceDefaults st))
      else bfail IndexError
  end.

(** [Builder.ForceDefaults(forceDefaults)] *)
Definition ForceDefaults (forceDefaults : bool) : BM unit :=
  st <-- bget ;;
  bput (mkBuilder (b_bytes st) (b_vtable st) (b_objectEnd st) (b_minalign st)
                  (b_vtables st) (b_nested st) forceDefaults).

(** [Builder.PrependUOffsetTRelativeSlot(o, x, d)]:
    [if x != d or self.forceDefaults] *)
Definition PrependUOffsetTRelativeSlot (o : nat) (x d : Z) : BM unit :=
  st <-- bget ;;
  if negb (x =? d) || b_forceDefaults st then PrependUOffsetTRelative x ;;;; Slot o
  else bret tt.

(** [Builder.StartVector(elemSize, numElems, alignment)] *)
Definition StartVector (elemSize numElems alignment : Z) : BM Z :=
  assertNotNested ;;;;
  st <-- bget ;;
  bput (mkBuilder (b_bytes st) (b_vtable st) (b_objectEnd st) (b_minalign st)
                  (b_vtables st) true (b_forceDefaults st)) ;;;;
  Prep 4 (elemSize * numElems) ;;;;
  Prep alignment (elemSize * numElems) ;;;;
  st <-- bget ;; bret (Offset st).

(** [Builder.EndVector(vectorNumElems)] *)
Definition EndVector (vectorNumElems : Z) : BM Z :=
  assertNested ;;;;
  st <-- bget ;;
  bput (mkBuilder (b_bytes st) (b_vtable st) (b_objectEnd st) (b_minalign st)
                  (b_vtables st) false (b_forceDefaults st)) ;;;;
  Place P_uoffset vectorNumElems ;;;;
  st <-- bget ;; bret (Offset st).

(** The key [vtKey] of [WriteVtable]: the slots from the last one down,
    trailing unset slots trimmed, set slots as [objectOffset - elem]. *)
Fixpoint vt_key (objectOffset : Z) (trim : bool) (rev_elems : list Z) : list Z :=
  match rev_elems with
  | [] => []
  | e :: r =>
      if e =? 0 then
        if trim then vt_key objectOffset true r
        else 0 :: vt_key objectOffset false r
      else (objectOffset - e) :: vt_key objectOffset false r
  end.

Fixpoint vt_lookup (k : list Z) (vts : list (list Z * Z)) : option Z :=
  match vts with
  | [] => None
  | (k', o) :: r => if bytes_eqb k k' then Some o else vt_lookup k r
  end.

(** The [while i >= 0] loop of [WriteVtable]; returns [trailing]. *)
Fixpoint write_vt_entries (objectOffset : Z) (trim : bool) (rev_elems : list Z)
  : BM Z :=
  match rev_elems with
  | [] => bret 0
  | e :: r =>
      if e =? 0 then
        if trim then (t <-- write_vt_entries objectOffset true r ;; bret (1 + t))
        else (PrependVOffsetT 0 ;;;; write_vt_entries objectOffset false r)
      else (PrependVOffsetT (objectOffset - e) ;;;;
            write_vt_entries objectOffset false r)
  end.

(** [encode.Write(packer.soffset, self.Bytes, i, v)] on the used part:
    [struct.pack_into('<i', ...)], out-of-range values raise. *)
Definition write_soffset_at (i : Z) (v : Z) : BM unit := fun st =>
  if valid_number P_soffset v && (0 <=? i) && (i + 4 <=? Offset st) then
    let bs := b_bytes st in
    Ok (tt, with_bytes st (firstn (Z.to_nat i) bs ++ le_encode 4 v
                           ++ skipn (Z.to_nat i + 4) bs))
  else Err StructError.

Definition clear_vtable (st : Builder) : Builder :=
  mkBuilder (b_bytes st) None (b_objectEnd st) (b_minalign st) (b_vtables st)
            (b_nested st) (b_forceDefaults st).

(** [Builder.WriteVtable()] *)
Definition WriteVtable : BM Z :=
  PrependSOffsetTRelative 0 ;;;;
  st <-- bget ;;
  let objectOffset := Offset st in
  let cur := match b_vtable st with Some l => l | None => [] end in
  let vtKey := vt_key objectOffset true (rev cur) in
  match vt_lookup vtKey (b_vtables st) with
  | None =>
      trailing <-- write_vt_entries objectOffset true (rev cur) ;;
      st <-- bget ;;
      let objectSize := objectOffset - b_objectEnd st in
      PrependVOffsetT objectSize ;;;;
      let vBytes := (Z.of_nat (length cur) - trailing + VtableMetadataFields) * 2 in
      PrependVOffsetT vBytes ;;;;
      st <-- bget ;;
      (* objectStart = len(Bytes) - objectOffset, an index of the used part *)
      write_soffset_at (Offset st - objectOffset) (Offset st - objectOffset) ;;;;
      st <-- bget ;;
      bput (mkBuilder (b_bytes st) None (b_objectEnd st) (b_minalign st)
                      ((vtKey, Offset st) :: b_vtables st) (b_nested st)
                      (b_forceDefaults st)) ;;;;
      bret objectOffset
  | Some vt2Offset =>
      (* head = objectStart: the head already is there *)
      write_soffset_at 0 (vt2Offset - objectOffset) ;;;;
      st <-- bget ;;
      bput (clear_vtable st) ;;;;
      bret objectOffset
  end.

(** [Builder.EndObject()] *)
Definition EndObject : BM Z :=
  assertNested ;;;;
  st <-- bget ;;
  bput (mkBuilder (b_bytes st) (b_vtable st) (b_objectEnd st) (b_minalign st)
                  (b_vtables st) false (b_forceDefaults st)) ;;;;
  WriteVtable.

(** [Builder.Finish(rootTable, file_identifier)] ([__Finish] without size
    prefix); the result is [Builder.Output()], i.e. [Bytes[head:]]. *)
Fixpoint place_bytes_rev (bs : list Z) : BM unit :=
  match bs with
  | [] => bret tt
  | b :: r => place_bytes_rev r ;;;; Place P_uint8 b
  end.

Definition Finish (rootTable : Z) (file_identifier : option (list Z)) : BM (list Z) :=
  (if valid_number P_uoffset rootTable then bret tt else bfail TypeError) ;;;;
  st <-- bget ;;
  let prepSize := 4 + match file_identifier with Some _ => 4 | None => 0 end in
  Prep (b_minalign st) prepSize ;;;;
  match file_identifier with
  | Some fid =>
      Prep 4 FILE_IDENTIFIER_LENGTH ;;;;
      if (length fid =? 4)%nat then place_bytes_rev fid else bfail StructError
  | None => bret tt
  end ;;;;
  PrependUOffsetTRelative rootTable ;;;;
  st <-- bget ;; bret (b_bytes st).

(** ** fbs/OpInfo.py, writing side *)

Definition OpInfoStart : BM unit := StartObject 1.
Definition OpInfoAddOpKernelTypeStrArgs (opKernelTypeStrArgs : Z) : BM unit :=
  PrependUOffsetTRelativeSlot 0 opKernelTypeStrArgs 0.
Definition OpInfoStartOpKernelTypeStrArgsVector (numElems : Z) : BM Z :=
  StartVector 4 numElems 4.
Definition OpInfoEnd : BM Z := EndObject.

(** The documented way to write the [opKernelTypeStrArgs] vector from the
    offsets of already finished [OpIdKernelTypeStrArgsEntry] tables:
    [OpInfoStartOpKernelTypeStrArgsVector], one [PrependUOffsetTRelative]
    per element in reverse order, [EndVector]. *)
Fixpoint prepend_all (offs : list Z) : BM unit :=
  match offs with
  | [] => bret tt
  | o :: r => PrependUOffsetTRelative o ;;;; prepend_all r
  end.

Definition write_OpKernelTypeStrArgs (tables : list Z) : BM Z :=
  let n := Z.of_nat (length tables) in
  OpInfoStartOpKernelTypeStrArgsVector n ;;;;
  prepend_all (rev tables) ;;;;
  EndVector n.

(** Writing one [OpInfo] whose [opKernelTypeStrArgs] holds [tables], and
    finishing the buffer with it as root. *)
Definition build_OpInfo (tables : list Z) (file_identifier : option (list Z))
  : BM (list Z) :=
  v <-- write_OpKernelTypeStrArgs tables ;;
  OpInfoStart ;;;;
  OpInfoAddOpKernelTypeStrArgs v ;;;;
  o <-- OpInfoEnd ;;
  Finish o file_identifier.

(** An empty nested table, as a stand-in entry. *)
Definition build_empty_table : BM Z := StartObject 1 ;;;; EndObject.

Definition sample_builder : BM (list Z) :=
  t1 <-- build_empty_table ;;
  t2 <-- build_empty_table ;;
  t3 <-- build_empty_table ;;
  build_OpInfo [t1; t2; t3] (Some ORTM).

(** The three empty tables [sample_builder] starts with. *)
Definition three_empty_tables : BM (list Z) :=
  t1 <-- build_empty_table ;;
  t2 <-- build_empty_table ;;
  t3 <-- build_empty_table ;;
  bret [t1; t2; t3].
(** Writing an [OpInfo] without its field: [OpInfoAddOpKernelTypeStrArgs]
    is called with the default value 0. *)
Definition build_OpInfo_without_field (file_identifier : option (list Z))
  : BM (list Z) :=
  OpInfoStart ;;;;
  OpInfoAddOpKernelTypeStrArgs 0 ;;;;
  o <-- OpInfoEnd ;;
  Finish o file_identifier.
(** The buffer [sample_builder] outputs on a fresh builder: root at 16,
    vtable at 10, the vector at 24 with elements pointing to 52, 44, 40. *)
Definition sample_buffer : list Z :=
  [16; 0; 0; 0; 79; 82; 84; 77; 0; 0; 6; 0; 8; 0; 4; 0; 6; 0; 0; 0;
   4; 0; 0; 0; 3; 0; 0; 0; 24; 0; 0; 0; 12; 0; 0; 0; 4; 0; 0; 0;
   248; 255; 255; 255; 252; 255; 255; 255; 4; 0; 4; 0; 4; 0; 0; 0].

(** A Python [bytes] object: every element is in [0, 255]. *)
Definition is_bytes (buf : list Z) : bool :=
  forallb (fun b => (0 <=? b) && (b <=? 255)) buf.

(** The 4 bytes at position [p] of [buf], if [buf] holds them
    (the reading of the identifier check in the specification). *)
Definition identifier_at (buf : list Z) (p : Z) : option (list Z) :=
  if (0 <=? p) && (p + FILE_IDENTIFIER_LENGTH <=? blen buf)
  then Some (firstn 4 (skipn (Z.to_nat p) buf)) else None.

(** A reader that leaves the bound buffer as it found it. *)
Definition preserves {A} (m : RM A) : Prop := forall L, snd (m L) = L.

(** ** Values at builder offsets

    What the builder writes while its [Offset()] grows to [o] sits, in any
    buffer [l] it later prepends to, at position [len l - o]. *)
Definition get_at (k : packer) (l : list Z) (o : Z) : result Z :=
  if (0 <=? o) && (o <=? blen l) then run (encode_Get k (blen l - o)) l
  else Err StructError.

Definition res_is (r : result Z) (v : Z) : bool :=
  match r with Ok x => x =? v | Err _ => false end.

Fixpoint entries_stored (bs : list Z) (o : Z) (es : list Z) : bool :=
  match es with
  | [] => true
  | e :: r => res_is (get_at P_voffset bs o) e && entries_stored bs (o - 2) r
  end.

(** Invariant of the builder's dedup dictionary: each recorded vtable is
    in the buffer at its offset, its byte size first and then its field
    entries in slot order (the key lists them from the last slot down). *)
Definition vtables_stored (st : Builder) : bool :=
  forallb (fun '(key, o) =>
             res_is (get_at P_voffset (b_bytes st) o) (2 * (Z.of_nat (length key) + 2))
             && entries_stored (b_bytes st) (o - 4) (rev key))
          (b_vtables st).

(** * Lemmas *)

(** ** Byte encoding *)

Lemma le_encode_length w v : length (le_encode w v) = w.
Proof. revert v; induction w; intros v; simpl; auto. Qed.

Lemma mod_mul_split a b c : 0 < b -> 0 < c ->
  a mod (b * c) = a mod b + b * ((a / b) mod c).
Proof.
  intros Hb Hc. symmetry. apply (Z.mod_unique _ _ ((a / b) / c)).
  - left. pose proof (Z.mod_pos_bound a b Hb).
    pose proof (Z.mod_pos_bound (a / b) c Hc). nia.
  - pose proof (Z.div_mod a b ltac:(lia)).
    pose proof (Z.div_mod (a / b) c ltac:(lia)). nia.
Qed.

Lemma le_decode_encode w v :
  le_decode (le_encode w v) = v mod 2 ^ (8 * Z.of_nat w).
Proof.
  revert v; induction w as [|w IH]; intros v.
  - simpl. rewrite Z.mod_1_r. reflexivity.
  - cbn [le_encode le_decode]. rewrite IH.
    change 255 with (Z.ones 8). rewrite Z.land_ones by lia.
    rewrite Z.shiftr_div_pow2 by lia.
    rewrite Nat2Z.inj_succ, Z.mul_succ_r, Z.pow_add_r by lia.
    rewrite (Z.mul_comm (2 ^ _) (2 ^ 8)).
    rewrite (mod_mul_split v (2 ^ 8)); [reflexivity | lia |].
    apply Z.pow_pos_nonneg; lia.
Qed.

Lemma unpack_value_encode k v :
  valid_number k v = true -> unpack_value k (le_encode (bytewidth k) v) = v.
Proof.
  unfold valid_number, unpack_value. intros H. apply andb_true_iff in H.
  destruct H as [H1 H2]. apply Z.leb_le in H1. apply Z.leb_le in H2.
  rewrite le_decode_encode.
  destruct k; cbn [bytewidth pmin pmax] in *.
  - apply Z.mod_small; simpl; lia.
  - apply Z.mod_small; simpl; lia.
  - apply Z.mod_small; simpl; lia.
  - change (8 * Z.of_nat 4) with 32.
    destruct (Z_lt_le_dec v 0).
    + rewrite <- (Z.mod_add v 1 (2 ^ 32)) by lia.
      rewrite Z.mod_small by lia.
      destruct (v + 1 * 2 ^ 32 >=? 2 ^ 31) eqn:E; [lia|]. 
      rewrite Z.geb_leb in E; apply Z.leb_gt in E; lia.
    + rewrite Z.mod_small by lia.
      destruct (v >=? 2 ^ 31) eqn:E; [|reflexivity].
      apply Z.geb_le in E; lia.
Qed.

Lemma blen_app (a b : list Z) : blen (a ++ b) = blen a + blen b.
Proof. unfold blen. rewrite length_app. lia. Qed.

Lemma blen_encode w v : blen (le_encode w v) = Z.of_nat w.
Proof. unfold blen. rewrite le_encode_length. reflexivity. Qed.

Lemma blen_repeat k : blen (repeat 0 k) = Z.of_nat k.
Proof. unfold blen. rewrite repeat_length. reflexivity. Qed.

Lemma blen_nonneg l : 0 <= blen l.
Proof. unfold blen. lia. Qed.

(** ** Reading at builder offsets *)

Lemma encode_Get_state k p l : snd (encode_Get k p l) = l.
Proof. unfold encode_Get. destruct (unpack_from _ _ _); reflexivity. Qed.

Lemma get_at_spec k l o :
  get_at k l o =
  if (0 <=? o) && (o <=? blen l) then
    if o <? Z.of_nat (bytewidth k) then Err StructError
    else Ok (unpack_value k (firstn (bytewidth k) (skipn (Z.to_nat (blen l - o)) l)))
  else Err StructError.
Proof.
  unfold get_at, run, encode_Get, unpack_from.
  destruct ((0 <=? o) && (o <=? blen l)) eqn:E; [|reflexivity].
  apply andb_true_iff in E; destruct E as [E1 E2].
  apply Z.leb_le in E1; apply Z.leb_le in E2.
  destruct (blen l - o <? 0) eqn:E3; [apply Z.ltb_lt in E3; lia|].
  rewrite E3.
  replace (blen l - (blen l - o)) with o by lia. destruct (o <? _); reflexivity.
Qed.

Lemma get_at_app k X l o v :
  get_at k l o = Ok v -> get_at k (X ++ l) o = Ok v.
Proof.
  rewrite !get_at_spec, blen_app.
  destruct ((0 <=? o) && (o <=? blen l)) eqn:E; [|discriminate].
  apply andb_true_iff in E; destruct E as [E1 E2].
  apply Z.leb_le in E1; apply Z.leb_le in E2.
  pose proof (blen_nonneg X).
  replace ((0 <=? o) && (o <=? blen X + blen l)) with true
    by (symmetry; apply andb_true_iff; split; apply Z.leb_le; lia).
  destruct (o <? _); [discriminate|].
  replace (Z.to_nat (blen X + blen l - o)) with (length X + Z.to_nat (blen l - o))%nat
    by (unfold blen in *; lia).
  rewrite skipn_app, (skipn_all2 X) by lia.
  replace (length X + Z.to_nat (blen l - o) - length X)%nat
    with (Z.to_nat (blen l - o)) by lia.
  simpl. auto.
Qed.

Lemma get_at_place k v l :
  valid_number k v = true ->
  get_at k (le_encode (bytewidth k) v ++ l) (blen l + Z.of_nat (bytewidth k)) = Ok v.
Proof.
  intros Hv. rewrite get_at_spec, blen_app, blen_encode.
  pose proof (blen_nonneg l).
  replace ((0 <=? blen l + Z.of_nat (bytewidth k)) &&
           (blen l + Z.of_nat (bytewidth k) <=? Z.of_nat (bytewidth k) + blen l))
    with true by (symmetry; apply andb_true_iff; split; apply Z.leb_le; lia).
  destruct (blen l + Z.of_nat (bytewidth k) <? Z.of_nat (bytewidth k)) eqn:E.
  { apply Z.ltb_lt in E; lia. }
  replace (Z.to_nat (Z.of_nat (bytewidth k) + blen l - (blen l + Z.of_nat (bytewidth k))))
    with O by lia.
  simpl. rewrite <- (le_encode_length (bytewidth k) v) at 1.
  rewrite firstn_app, firstn_all, Nat.sub_diag. simpl. rewrite app_nil_r.
  rewrite unpack_value_encode; auto.
Qed.

Lemma get_at_place_at k v l o :
  o = blen l + Z.of_nat (bytewidth k) -> valid_number k v = true ->
  get_at k (le_encode (bytewidth k) v ++ l) o = Ok v.
Proof. intros ->. apply get_at_place. Qed.

Lemma get_at_encode_Get k l o v :
  get_at k l o = Ok v -> encode_Get k (blen l - o) l = (Ok v, l).
Proof.
  unfold get_at. destruct ((0 <=? o) && (o <=? blen l)); [|discriminate].
  unfold run. intros H.
  destruct (encode_Get k (blen l - o) l) as [r l'] eqn:E.
  pose proof (encode_Get_state k (blen l - o) l) as Hs. rewrite E in Hs.
  simpl in *. subst. reflexivity.
Qed.

Lemma get_at_bounds k l o v :
  get_at k l o = Ok v -> Z.of_nat (bytewidth k) <= o <= blen l.
Proof.
  rewrite get_at_spec.
  destruct ((0 <=? o) && (o <=? blen l)) eqn:E; [|discriminate].
  apply andb_true_iff in E; destruct E as [E1 E2].
  apply Z.leb_le in E1; apply Z.leb_le in E2.
  destruct (o <? _) eqn:E3; [discriminate|]. apply Z.ltb_ge in E3. lia.
Qed.

Lemma get_at_Table_Get t k l o v :
  get_at k l o = Ok v -> blen l <= 2 ^ 32 - 1 ->
  Table_Get t k (blen l - o) l = (Ok v, l).
Proof.
  intros H Hl. pose proof (get_at_bounds _ _ _ _ H).
  unfold Table_Get, rbind, enforce_number.
  replace (valid_number P_uoffset (blen l - o)) with true
    by (symmetry; unfold valid_number; cbn [pmin pmax];
        apply andb_true_iff; split; apply Z.leb_le; lia).
  unfold rret. apply get_at_encode_Get; auto.
Qed.

Ltac valid_tac :=
  unfold valid_number; cbn [pmin pmax]; apply andb_true_iff; split; apply Z.leb_le; lia.

Lemma valid_number_spec k n :
  valid_number k n = true <-> pmin k <= n <= pmax k.
Proof.
  unfold valid_number. rewrite andb_true_iff, !Z.leb_le. tauto.
Qed.

(** ** Builder operations *)

Lemma bbind_Ok {A B} (m : BM A) (f : A -> BM B) st r :
  bbind m f st = Ok r -> exists a st', m st = Ok (a, st') /\ f a st' = Ok r.
Proof.
  unfold bbind. destruct (m st) as [[a st']|e]; [|discriminate].
  intros H; exists a, st'; auto.
Qed.

Ltac binv H :=
  repeat match type of H with
  | bbind _ _ _ = Ok _ =>
      let a := fresh "a" in let s := fresh "st" in
      let H1 := fresh "H" in
      apply bbind_Ok in H; destruct H as (a & s & H1 & H); cbv beta in H
  end.

(** [st'] extends [st] by the bytes [X] and keeps every other field
    (save [minalign]). *)
Definition extends (st st' : Builder) (X : list Z) : Prop :=
  b_bytes st' = X ++ b_bytes st /\ b_vtable st' = b_vtable st /\
  b_objectEnd st' = b_objectEnd st /\ b_vtables st' = b_vtables st /\
  b_nested st' = b_nested st.

Lemma extends_refl st : extends st st [].
Proof. repeat split; reflexivity. Qed.

Lemma extends_trans st1 st2 st3 X Y :
  extends st1 st2 X -> extends st2 st3 Y -> extends st1 st3 (Y ++ X).
Proof.
  intros (A1&A2&A3&A4&A5) (B1&B2&B3&B4&B5).
  repeat split; try congruence. rewrite B1, A1, app_assoc. reflexivity.
Qed.

Lemma extends_Offset st st' X : extends st st' X -> Offset st' = blen X + Offset st.
Proof. intros (H&_). unfold Offset. rewrite H, blen_app. reflexivity. Qed.

Lemma align_pow2 x n : 0 <= n ->
  Z.land (Z.lnot x + 1) (2 ^ n - 1) = (- x) mod 2 ^ n.
Proof.
  intros Hn. rewrite Z.lnot_eq_pred_opp.
  replace (- x - 1 + 1) with (- x) by lia.
  replace (2 ^ n - 1) with (Z.ones n) by (rewrite Z.ones_equiv; lia).
  apply Z.land_ones; auto.
Qed.

Lemma Prep_Ok size add st u st' :
  Prep size add st = Ok (u, st') ->
  let al := Z.land (Z.lnot (Offset st + add) + 1) (size - 1) in
  Offset st + al + size + add <= MAX_BUFFER_SIZE /\
  extends st st' (repeat 0 (Z.to_nat al)).
Proof.
  unfold Prep. intros H. cbv zeta.
  destruct (MAX_BUFFER_SIZE <? _) eqn:E; [discriminate|].
  apply Z.ltb_ge in E. injection H as <- <-.
  split; [exact E|]. repeat split; reflexivity.
Qed.

Lemma Prep_pow2 n add st u st' :
  0 <= n -> Prep (2 ^ n) add st = Ok (u, st') ->
  exists X, extends st st' X /\ blen X = (- (Offset st + add)) mod 2 ^ n /\
            (Offset st' + add) mod 2 ^ n = 0 /\
            Offset st' + 2 ^ n + add <= MAX_BUFFER_SIZE.
Proof.
  intros Hn H. apply Prep_Ok in H. simpl in H. destruct H as [Hb Hx].
  rewrite align_pow2 in * by auto.
  exists (repeat 0 (Z.to_nat ((- (Offset st + add)) mod 2 ^ n))).
  pose proof (Z.mod_pos_bound (- (Offset st + add)) (2 ^ n)
                ltac:(apply Z.pow_pos_nonneg; lia)).
  split; [exact Hx|]. rewrite (extends_Offset _ _ _ Hx), blen_repeat.
  rewrite Z2Nat.id by lia. split; [reflexivity|]. split; [|lia].
  rewrite <- Z.add_assoc, Zplus_mod_idemp_l.
  replace (- (Offset st + add) + (Offset st + add)) with 0 by lia.
  apply Z.mod_0_l. apply Z.pow_nonzero; lia.
Qed.

Lemma Prep_pow2_aligned n add st u st' :
  0 <= n -> Prep (2 ^ n) add st = Ok (u, st') ->
  (Offset st + add) mod 2 ^ n = 0 ->
  extends st st' [] /\ Offset st + 2 ^ n + add <= MAX_BUFFER_SIZE.
Proof.
  intros Hn H Ha. apply Prep_pow2 in H; auto.
  destruct H as (X & Hx & Hl & _ & Hm).
  rewrite Z.mod_opp_l_z in Hl by (try apply Z.pow_nonzero; lia).
  destruct X; [|unfold blen in Hl; simpl in Hl; lia].
  rewrite (extends_Offset _ _ _ Hx) in Hm. simpl in Hm. auto.
Qed.

Lemma Place_Ok k x st u st' :
  Place k x st = Ok (u, st') ->
  valid_number k x = true /\ extends st st' (le_encode (bytewidth k) x).
Proof.
  unfold Place. destruct (valid_number k x) eqn:E; [|discriminate].
  intros H; injection H as <- <-. split; auto. repeat split; reflexivity.
Qed.

Lemma bget_Ok st a st' : bget st = Ok (a, st') -> a = st /\ st' = st.
Proof. unfold bget. intros H; injection H; auto. Qed.

Lemma bret_Ok {A} (x : A) st a st' : bret x st = Ok (a, st') -> a = x /\ st' = st.
Proof. unfold bret. intros H; injection H; auto. Qed.

Lemma bput_Ok s st a st' : bput s st = Ok (a, st') -> st' = s.
Proof. unfold bput. intros H; injection H; auto. Qed.

Lemma bfail_Ok {A} e st (r : A * Builder) : bfail e st = Ok r -> False.
Proof. discriminate. Qed.

(** [PrependUOffsetTRelative] on a 4-aligned builder writes one u32. *)
Lemma PrependUOffsetTRelative_Ok off st u st' :
  PrependUOffsetTRelative off st = Ok (u, st') ->
  exists X st1, extends st st1 X /\ off <= Offset st1 /\
    valid_number P_uoffset (Offset st1 - off + 4) = true /\
    extends st1 st' (le_encode 4 (Offset st1 - off + 4)) /\
    Offset st1 + 4 <= MAX_BUFFER_SIZE /\
    ((Offset st) mod 4 = 0 -> X = []).
Proof.
  unfold PrependUOffsetTRelative. intros H. binv H.
  change 4 with (2 ^ 2) in H0 at 1.
  pose proof (Prep_pow2 2 0 _ _ _ ltac:(lia) H0) as (X & Hx & _ & _ & Hm).
  apply bget_Ok in H1; destruct H1 as [-> ->].
  destruct (negb (off <=? Offset st0)) eqn:E; [discriminate|].
  apply negb_false_iff, Z.leb_le in E.
  apply Place_Ok in H. destruct H as [Hv He].
  exists X, st0. split; [exact Hx|]. split; [exact E|]. split; [exact Hv|].
  split; [exact He|]. split; [simpl in Hm; lia|].
  intros Ha. apply Prep_pow2_aligned in H0; [|lia|rewrite Z.add_0_r; exact Ha].
  destruct H0 as [[H0 _] _]. destruct Hx as [Hx _]. rewrite H0 in Hx.
  destruct X; [reflexivity|]. apply (f_equal (@length Z)) in Hx.
  rewrite !length_app in Hx. simpl in Hx. lia.
Qed.

Lemma assertNested_Ok st a st' :
  assertNested st = Ok (a, st') -> st' = st /\ b_nested st = true.
Proof.
  unfold assertNested, bbind, bget. destruct (b_nested st); [|discriminate].
  intros H; injection H; auto.
Qed.

Lemma assertNotNested_Ok st a st' :
  assertNotNested st = Ok (a, st') -> st' = st /\ b_nested st = false.
Proof.
  unfold assertNotNested, bbind, bget. destruct (b_nested st); [discriminate|].
  intros H; injection H; auto.
Qed.

Lemma Offset_pos st : 0 <= Offset st.
Proof. apply blen_nonneg. Qed.

Lemma prepend_all_Ok offs st u st' :
  prepend_all offs st = Ok (u, st') -> Offset st mod 4 = 0 ->
  exists X, extends st st' X /\ blen X = 4 * Z.of_nat (length offs) /\
    forall i, (i < length offs)%nat ->
      nth i offs 0 <= Offset st + 4 * Z.of_nat i /\
      get_at P_uoffset (b_bytes st') (Offset st + 4 * Z.of_nat i + 4)
        = Ok (Offset st + 4 * Z.of_nat i + 4 - nth i offs 0).
Proof.
  revert st. induction offs as [|o r IH]; intros st H Ha; simpl in H.
  - apply bret_Ok in H. destruct H as [_ ->]. exists [].
    split; [apply extends_refl|]. split; [reflexivity|].
    intros i Hi; simpl in Hi; lia.
  - binv H.
    apply PrependUOffsetTRelative_Ok in H0.
    destruct H0 as (X0 & st1 & Hx0 & Hle & Hv & He & _ & Hal).
    specialize (Hal Ha). subst X0.
    pose proof (extends_Offset _ _ _ Hx0) as Ho1. simpl in Ho1.
    pose proof (extends_Offset _ _ _ He) as Ho2. rewrite blen_encode in Ho2.
    destruct (IH _ H) as (Y & Hy & Hyl & Hys).
    { rewrite Ho2, Ho1, Zplus_mod, Ha. reflexivity. }
    exists (Y ++ (le_encode 4 (Offset st1 - o + 4) ++ [])).
    split; [eapply extends_trans; [eapply extends_trans; [exact Hx0|exact He]|exact Hy]|].
    split.
    { rewrite !blen_app, blen_encode, Hyl. cbn [length]. unfold blen. cbn [length]. lia. }
    intros [|i] Hi.
    + simpl nth. rewrite Ho1 in Hle. split; [lia|].
      destruct Hy as [Hy _]. rewrite Hy. apply get_at_app.
      destruct He as [He _]. rewrite He.
      replace (Offset st + 4 * Z.of_nat 0 + 4) with (blen (b_bytes st1) + Z.of_nat (bytewidth P_uoffset))
        by (unfold Offset in *; cbn [bytewidth Z.of_nat]; lia).
      rewrite get_at_place by auto. f_equal. change (Z.of_nat (bytewidth P_uoffset)) with 4. unfold Offset. lia.
    + simpl nth. simpl in Hi. destruct (Hys i ltac:(lia)) as [Hi1 Hi2].
      rewrite Ho2, Ho1 in Hi1, Hi2. change (Z.of_nat 4) with 4 in Hi1, Hi2.
      split; [lia|].
      replace (Offset st + 4 * Z.of_nat (S i) + 4)
        with (4 + Offset st + 4 * Z.of_nat i + 4) by lia.
      rewrite Hi2. f_equal; lia.
Qed.

Ltac bnorm :=
  repeat match goal with
  | H : bget _ = Ok _ |- _ => apply bget_Ok in H; destruct H as [? ?]; subst
  | H : bret _ _ = Ok _ |- _ => apply bret_Ok in H; destruct H as [? ?]; subst
  | H : bput _ _ = Ok _ |- _ => apply bput_Ok in H; subst
  | H : assertNested _ = Ok _ |- _ =>
      let Hn := fresh "Hnest" in
      apply assertNested_Ok in H; destruct H as [? Hn]; subst
  | H : assertNotNested _ = Ok _ |- _ =>
      let Hn := fresh "Hnest" in
      apply assertNotNested_Ok in H; destruct H as [? Hn]; subst
  end.

Lemma StartVector_Ok n st S st' :
  OpInfoStartOpKernelTypeStrArgsVector n st = Ok (S, st') ->
  b_nested st = false /\ b_nested st' = true /\ b_vtables st' = b_vtables st /\
  (exists X, b_bytes st' = X ++ b_bytes st) /\ S = Offset st' /\ S mod 4 = 0.
Proof.
  unfold OpInfoStartOpKernelTypeStrArgsVector, StartVector. intros H. binv H. bnorm.
  match goal with
  | H1 : Prep _ _ ?s1 = Ok (_, ?s2), H2 : Prep _ _ ?s2 = Ok (_, ?s3) |- _ =>
      change 4 with (2 ^ 2) in H1 at 1; change 4 with (2 ^ 2) in H2 at 1;
      destruct (Prep_pow2 2 _ _ _ _ ltac:(lia) H1) as (X & Hx & _ & Ha & _);
      destruct (Prep_pow2_aligned 2 _ _ _ _ ltac:(lia) H2 Ha) as [Hy _];
      pose proof (extends_Offset _ _ _ Hy) as Ho
  end.
  destruct Hx as (Hx1 & _ & _ & Hx4 & Hx5). destruct Hy as (Hy1 & _ & _ & Hy4 & Hy5).
  cbn [b_nested b_vtables b_bytes] in *.
  split; [assumption|]. split; [congruence|]. split; [congruence|].
  split; [exists X; rewrite Hy1, Hx1; reflexivity|].
  split; [reflexivity|].
  rewrite Ho. change (2 ^ 2) with 4 in Ha. change (blen []) with 0.
  rewrite (Z.mul_comm 4), Z_mod_plus_full in Ha. exact Ha.
Qed.

Lemma EndVector_Ok n st V st' :
  EndVector n st = Ok (V, st') ->
  b_nested st = true /\ b_nested st' = false /\ b_vtables st' = b_vtables st /\
  b_bytes st' = le_encode 4 n ++ b_bytes st /\
  valid_number P_uoffset n = true /\ V = Offset st'.
Proof.
  unfold EndVector. intros H. binv H. bnorm.
  match goal with H1 : Place _ _ _ = Ok _ |- _ => apply Place_Ok in H1; destruct H1 as [Hv Hx] end.
  destruct Hx as (Hx1 & _ & _ & Hx4 & Hx5). cbn [b_nested b_vtables b_bytes] in *.
  repeat split; auto; congruence.
Qed.

Lemma write_vec_Ok ts st V st' :
  write_OpKernelTypeStrArgs ts st = Ok (V, st') ->
  b_nested st = false /\ b_nested st' = false /\ b_vtables st' = b_vtables st /\
  (exists X, b_bytes st' = X ++ b_bytes st) /\ V = Offset st' /\ V mod 4 = 0 /\
  get_at P_uoffset (b_bytes st') V = Ok (Z.of_nat (length ts)) /\
  forall j, (j < length ts)%nat ->
    nth j ts 0 <= V - 8 - 4 * Z.of_nat j /\
    get_at P_uoffset (b_bytes st') (V - 4 - 4 * Z.of_nat j)
      = Ok (V - 4 - 4 * Z.of_nat j - nth j ts 0).
Proof.
  unfold write_OpKernelTypeStrArgs. intros H. binv H.
  apply StartVector_Ok in H0. destruct H0 as (Hn0 & Hn1 & Hv0 & [X0 Hb0] & -> & Ha).
  apply prepend_all_Ok in H1; [|exact Ha].
  destruct H1 as (X1 & Hx1 & Hl1 & Hel).
  apply EndVector_Ok in H. destruct H as (Hn2 & Hn3 & Hv2 & Hb2 & Hvn & ->).
  pose proof (extends_Offset _ _ _ Hx1) as Ho1. rewrite Hl1, length_rev in Ho1.
  destruct Hx1 as (Hb1 & _ & _ & Hv1 & Hn4).
  assert (HV : Offset st' = Offset st0 + 4 * Z.of_nat (length ts) + 4).
  { unfold Offset in *. rewrite Hb2, blen_app, blen_encode. lia. }
  split; [exact Hn0|]. split; [exact Hn3|]. split; [congruence|].
  split; [exists (le_encode 4 (Z.of_nat (length ts)) ++ X1 ++ X0);
          rewrite Hb2, Hb1, Hb0, !app_assoc; reflexivity|].
  split; [reflexivity|].
  split.
  { rewrite HV, <- Z.add_assoc.
    replace (4 * Z.of_nat (length ts) + 4) with ((Z.of_nat (length ts) + 1) * 4) by lia.
    rewrite Z_mod_plus_full. exact Ha. }
  split.
  { rewrite Hb2. unfold Offset at 1. rewrite Hb2, blen_app, blen_encode, Z.add_comm.
    apply (get_at_place P_uoffset). exact Hvn. }
  intros j Hj.
  set (n := length ts) in *.
  destruct (Hel (n - 1 - j)%nat) as [Hle Hget]; [rewrite length_rev; lia|].
  rewrite rev_nth in Hle, Hget by lia. fold n in Hle, Hget.
  replace (n - S (n - 1 - j))%nat with j in Hle, Hget by lia.
  rewrite Nat2Z.inj_sub, Nat2Z.inj_sub in Hle, Hget by lia.
  rewrite HV. split; [lia|].
  rewrite Hb2. apply get_at_app.
  replace (Offset st0 + 4 * Z.of_nat n + 4 - 4 - 4 * Z.of_nat j)
    with (Offset st0 + 4 * (Z.of_nat n - Z.of_nat 1 - Z.of_nat j) + 4) by lia.
  rewrite Hget. f_equal; lia.
Qed.

Lemma PrependVOffsetT_even x st u st' :
  PrependVOffsetT x st = Ok (u, st') -> Offset st mod 2 = 0 ->
  valid_number P_voffset x = true /\ extends st st' (le_encode 2 x).
Proof.
  unfold PrependVOffsetT, Prepend. intros H Ha. binv H.
  change (Z.of_nat (bytewidth P_voffset)) with (2 ^ 1) in H0.
  destruct (Prep_pow2_aligned 1 _ _ _ _ ltac:(lia) H0 ltac:(rewrite Z.add_0_r; exact Ha))
    as [Hx _].
  apply Place_Ok in H. destruct H as [Hv Hy]. split; [exact Hv|].
  pose proof (extends_trans _ _ _ _ _ Hx Hy) as Hz. rewrite app_nil_r in Hz. exact Hz.
Qed.

Lemma PrependSOffsetTRelative_aligned st u st' :
  PrependSOffsetTRelative 0 st = Ok (u, st') -> Offset st mod 4 = 0 ->
  valid_number P_soffset (Offset st + 4) = true /\
  extends st st' (le_encode 4 (Offset st + 4)).
Proof.
  unfold PrependSOffsetTRelative. intros H Ha. binv H.
  change 4 with (2 ^ 2) in H0 at 1.
  destruct (Prep_pow2_aligned 2 _ _ _ _ ltac:(lia) H0 ltac:(rewrite Z.add_0_r; exact Ha))
    as [Hx _].
  bnorm.
  match goal with
  | Hx : extends st ?s [] |- _ =>
      pose proof (extends_Offset _ _ _ Hx) as Ho; simpl in Ho;
      destruct (negb (0 <=? Offset s)); [discriminate|];
      apply Place_Ok in H; destruct H as [Hv Hy]; rewrite Ho, Z.sub_0_r in Hv, Hy;
      pose proof (extends_trans _ _ _ _ _ Hx Hy) as Hz; rewrite app_nil_r in Hz
  end.
  auto.
Qed.

Lemma firstn_length_app (A L : list Z) : firstn (length A) (A ++ L) = A.
Proof. induction A; simpl; f_equal; auto. Qed.

Lemma skipn_length_app_add (A L : list Z) n :
  skipn (length A + n) (A ++ L) = skipn n L.
Proof. induction A; simpl; auto. Qed.

Lemma skipn_length_app (A L : list Z) : skipn (length A) (A ++ L) = L.
Proof. induction A; simpl; auto. Qed.

Lemma Ok_pair_inj {A B} (a a' : A) (b b' : B) : Ok (a, b) = Ok (a', b') -> a' = a /\ b' = b.
Proof. intros H. injection H. auto. Qed.

Lemma write_soffset_at_Ok A B C v st u st' :
  write_soffset_at (blen A) v st = Ok (u, st') ->
  b_bytes st = A ++ B ++ C -> length B = 4%nat ->
  valid_number P_soffset v = true /\
  st' = with_bytes st (A ++ le_encode 4 v ++ C).
Proof.
  unfold write_soffset_at. intros H HA HB.
  destruct (valid_number P_soffset v && (0 <=? blen A) && (blen A + 4 <=? Offset st)) eqn:E;
    [|discriminate].
  apply andb_true_iff in E as [E _]. apply andb_true_iff in E as [E _].
  apply Ok_pair_inj in H. destruct H as [_ H]. subst st'.
  split; [exact E|]. f_equal. rewrite HA.
  replace (Z.to_nat (blen A)) with (length A) by (unfold blen; lia).
  rewrite firstn_length_app, skipn_length_app_add.
  replace (skipn 4 (B ++ C)) with C by (rewrite <- HB; symmetry; apply skipn_length_app).
  reflexivity.
Qed.

Lemma entries_stored_app X bs o es :
  entries_stored bs o es = true -> entries_stored (X ++ bs) o es = true.
Proof.
  revert o; induction es as [|e r IH]; intros o H; simpl in *; auto.
  apply andb_true_iff in H as [H1 H2]. apply andb_true_iff; split; auto.
  unfold res_is in *. destruct (get_at P_voffset bs o) eqn:E; [|discriminate].
  rewrite (get_at_app _ X _ _ _ E). exact H1.
Qed.

Lemma res_is_Ok r v : res_is r v = true <-> r = Ok v.
Proof.
  unfold res_is. destruct r; split; intros H; try discriminate.
  - apply Z.eqb_eq in H; subst; reflexivity.
  - injection H as ->; apply Z.eqb_refl.
Qed.

Lemma bytes_eqb_eq a b : bytes_eqb a b = true -> a = b.
Proof.
  revert b; induction a as [|x a IH]; intros [|y b] H; simpl in H; try discriminate; auto.
  apply andb_true_iff in H as [H1 H2]. apply Z.eqb_eq in H1. subst. f_equal; auto.
Qed.

Lemma vt_lookup_stored st key o :
  vtables_stored st = true -> vt_lookup key (b_vtables st) = Some o ->
  get_at P_voffset (b_bytes st) o = Ok (2 * (Z.of_nat (length key) + 2)) /\
  entries_stored (b_bytes st) (o - 4) (rev key) = true.
Proof.
  unfold vtables_stored. generalize (b_bytes st). induction (b_vtables st) as [|[k o'] r IH];
    intros bs H1 H2; simpl in *; [discriminate|].
  apply andb_true_iff in H1 as [Hk Hr].
  destruct (bytes_eqb key k) eqn:E.
  - apply bytes_eqb_eq in E. subst k. injection H2 as ->.
    apply andb_true_iff in Hk as [Hk1 Hk2]. apply res_is_Ok in Hk1. auto.
  - apply IH; auto.
Qed.

Lemma vtables_stored_app st st' X :
  b_bytes st' = X ++ b_bytes st -> b_vtables st' = b_vtables st ->
  vtables_stored st = true -> vtables_stored st' = true.
Proof.
  unfold vtables_stored. intros Hb Hv. rewrite Hv, Hb.
  generalize (b_vtables st) as l.
  induction l as [|[k o] r IH]; cbn [forallb]; auto.
  intros H. apply andb_true_iff in H as [Hk Hr]. apply andb_true_iff; split; [|exact (IH Hr)].
  apply andb_true_iff in Hk as [Hk1 Hk2]. apply andb_true_iff; split.
  - apply res_is_Ok in Hk1. apply res_is_Ok. apply get_at_app; auto.
  - apply entries_stored_app; auto.
Qed.

Lemma write_vt_entries_single oo e st t st' :
  write_vt_entries oo true [e] st = Ok (t, st') -> Offset st mod 2 = 0 ->
  (e = 0 /\ t = 1 /\ st' = st) \/
  (e <> 0 /\ t = 0 /\ valid_number P_voffset (oo - e) = true /\
   extends st st' (le_encode 2 (oo - e))).
Proof.
  intros H Ha. cbn [write_vt_entries] in H.
  destruct (e =? 0) eqn:E.
  - apply Z.eqb_eq in E. left. binv H. cbn [write_vt_entries] in H0. bnorm.
    auto.
  - apply Z.eqb_neq in E. right. binv H. cbn [write_vt_entries] in H. bnorm.
    destruct (PrependVOffsetT_even _ _ _ _ H0 Ha) as [Hv Hx]. auto.
Qed.

Lemma WriteVtable_single e st oo st' :
  b_vtable st = Some [e] -> Offset st mod 4 = 0 -> vtables_stored st = true ->
  WriteVtable st = Ok (oo, st') ->
  oo = Offset st + 4 /\ (exists X, b_bytes st' = X ++ b_bytes st) /\
  b_nested st' = b_nested st /\
  exists so, get_at P_soffset (b_bytes st') oo = Ok so /\
    get_at P_voffset (b_bytes st') (oo + so)
      = Ok (2 * (Z.of_nat (length (vt_key oo true [e])) + 2)) /\
    entries_stored (b_bytes st') (oo + so - 4) (rev (vt_key oo true [e])) = true /\
    ((vt_lookup (vt_key oo true [e]) (b_vtables st) = Some (oo + so) /\
      b_vtables st' = b_vtables st) \/
     (vt_lookup (vt_key oo true [e]) (b_vtables st) = None /\
      b_vtables st' = (vt_key oo true [e], oo + so) :: b_vtables st)).
Proof.
  intros Hvt Ha Hst H. unfold WriteVtable in H. binv H.
  apply PrependSOffsetTRelative_aligned in H0; [|exact Ha].
  destruct H0 as [Hv1 Hx1]. bnorm.
  pose proof (extends_Offset _ _ _ Hx1) as Ho0. rewrite blen_encode in Ho0.
  change (Z.of_nat (bytewidth P_soffset)) with 4 in Ho0.
  destruct Hx1 as (Hb0 & Hvt0 & Hoe0 & Hvs0 & Hn0).
  rewrite Hvt0, Hvt in H. change (rev [e]) with [e] in H.
  set (oo0 := Offset st0) in *.
  set (c := b_bytes st) in *.
  destruct (vt_lookup (vt_key oo0 true [e]) (b_vtables st0)) as [vt2|] eqn:Elk.
  - (* a vtable with the same key is reused *)
    binv H. bnorm.
    change 0 with (blen []) in H0.
    destruct (write_soffset_at_Ok [] _ c _ _ _ _ H0 Hb0 (le_encode_length 4 _)) as [Hv2 ->].
    rewrite Hvs0 in Elk.
    destruct (vt_lookup_stored _ _ _ Hst Elk) as [Hs1 Hs2].
    cbn [clear_vtable with_bytes b_bytes b_nested] in *.
    split; [unfold oo0; lia|].
    split; [eexists; reflexivity|].
    split; [exact Hn0|].
    exists (vt2 - oo0). split.
    + apply (get_at_place_at P_soffset); [|exact Hv2].
      unfold c. unfold Offset in Ho0. simpl. lia.
    + replace (oo0 + (vt2 - oo0)) with vt2 by lia. split; [|split].
      * apply (get_at_app _ _ c); exact Hs1.
      * apply (entries_stored_app _ c); exact Hs2.
      * left. split; [exact Elk|]. cbn [clear_vtable with_bytes b_vtables]. exact Hvs0.
  - (* a new vtable is written *)
    binv H.
    assert (Hev : oo0 mod 2 = 0).
    { clearbody oo0. rewrite Ho0. change (Z.of_nat 4) with 4.
      pose proof (Z.div_mod (Offset st) 4 ltac:(lia)) as Hdm. rewrite Ha in Hdm.
      rewrite Hdm. rewrite Z.add_0_r.
      replace (4 + 4 * (Offset st / 4)) with ((2 + 2 * (Offset st / 4)) * 2) by ring.
      apply Z_mod_mult. }
    assert (HX : exists ENT, extends st0 st1 ENT /\ (blen ENT = 0 \/ blen ENT = 2) /\
      (Z.of_nat (length [e]) - a0 + VtableMetadataFields) * 2
        = 2 * (Z.of_nat (length (vt_key oo0 true [e])) + 2) /\
      forall P Q, entries_stored (P ++ ENT ++ Q) (blen Q + blen ENT)
                    (rev (vt_key oo0 true [e])) = true).
    { destruct (write_vt_entries_single _ _ _ _ _ H0 Hev)
        as [(He & -> & ->) | (He & -> & Hve & Hxe)].
      - exists []. subst e. split; [apply extends_refl|]. split; [left; reflexivity|].
        split; [reflexivity|]. intros. reflexivity.
      - exists (le_encode 2 (oo0 - e)). split; [exact Hxe|].
        split; [right; reflexivity|].
        cbn [vt_key]. apply Z.eqb_neq in He. rewrite He. split; [reflexivity|].
        intros P Q. cbn [rev app entries_stored]. rewrite andb_true_r.
        apply res_is_Ok. apply get_at_app. apply (get_at_place_at P_voffset); [|exact Hve].
        reflexivity. }
    clear H0. destruct HX as (ENT & Hx1 & Hlen & Hvb & Hent).
    bnorm.
    pose proof (extends_Offset _ _ _ Hx1) as Ho1.
    assert (Hev1 : Offset st1 mod 2 = 0).
    { rewrite Ho1. fold oo0. destruct Hlen as [-> | ->]; rewrite ?Z.add_0_l; [exact Hev|].
      rewrite Zplus_mod, Hev. reflexivity. }
    destruct (PrependVOffsetT_even _ _ _ _ H2 Hev1) as [Hv2 Hx2].
    pose proof (extends_Offset _ _ _ Hx2) as Ho2. rewrite blen_encode in Ho2.
    assert (Hev3 : Offset st3 mod 2 = 0).
    { rewrite Ho2, Zplus_mod, Hev1. reflexivity. }
    destruct (PrependVOffsetT_even _ _ _ _ H3 Hev3) as [Hv3 Hx3].
    pose proof (extends_Offset _ _ _ Hx3) as Ho3. rewrite blen_encode in Ho3.
    rewrite Hvb in Hx3, Hv3.
    set (vB := 2 * (Z.of_nat (length (vt_key oo0 true [e])) + 2)) in *.
    set (os := oo0 - b_objectEnd st1) in *.
    pose (A := le_encode 2 vB ++ le_encode 2 os ++ ENT).
    assert (Hb4 : b_bytes st4 = A ++ le_encode 4 (Offset st + 4) ++ c).
    { rewrite (proj1 Hx3), (proj1 Hx2), (proj1 Hx1), Hb0. unfold A.
      rewrite <- !app_assoc. reflexivity. }
    assert (Hoc : oo0 = blen c + 4).
    { unfold oo0, Offset. rewrite Hb0, blen_app, blen_encode. simpl Z.of_nat. lia. }
    assert (HA : Offset st4 - oo0 = blen A).
    { unfold A. rewrite !blen_app, !blen_encode. rewrite Ho3, Ho2, Ho1. fold oo0.
      simpl Z.of_nat. lia. }
    rewrite HA in H5.
    destruct (write_soffset_at_Ok A _ c _ _ _ _ H5 Hb4 (le_encode_length 4 _)) as [Hv5 ->].
    cbn [b_bytes b_nested with_bytes].
    split; [rewrite Ho0; simpl Z.of_nat; lia|].
    split; [exists (A ++ le_encode 4 (blen A)); rewrite <- app_assoc; reflexivity|].
    split.
    { destruct Hx1 as (_&_&_&_&N1), Hx2 as (_&_&_&_&N2), Hx3 as (_&_&_&_&N3). congruence. }
    exists (blen A). split; [|split; [|split]].
    + apply get_at_app. apply (get_at_place_at P_soffset); [|exact Hv5].
      rewrite Hoc. reflexivity.
    + unfold A at 1. rewrite <- !app_assoc. apply (get_at_place_at P_voffset); [|exact Hv3].
      unfold A. rewrite !blen_app, !blen_encode, Hoc. simpl Z.of_nat. lia.
    + replace (A ++ le_encode 4 (blen A) ++ c)
        with ((le_encode 2 vB ++ le_encode 2 os) ++ ENT ++ (le_encode 4 (blen A) ++ c))
        by (unfold A; rewrite <- !app_assoc; reflexivity).
      replace (oo0 + blen A - 4) with (blen (le_encode 4 (blen A) ++ c) + blen ENT).
      * apply Hent.
      * unfold A. rewrite !blen_app, !blen_encode, Hoc. simpl Z.of_nat. lia.
    + right. rewrite <- Hvs0. split; [exact Elk|].
      destruct Hx1 as (_&_&_&V1&_), Hx2 as (_&_&_&V2&_), Hx3 as (_&_&_&V3&_).
      transitivity ((vt_key oo0 true [e], blen (A ++ le_encode 4 (blen A) ++ c))
                      :: b_vtables st4); [reflexivity|].
      rewrite V3, V2, V1, !blen_app, blen_encode, Hoc.
      f_equal. f_equal. simpl Z.of_nat. lia.
Qed.

Lemma OpInfoStart_Ok st u st' :
  OpInfoStart st = Ok (u, st') ->
  b_nested st = false /\ b_bytes st' = b_bytes st /\ b_vtable st' = Some [0] /\
  b_objectEnd st' = Offset st /\ b_vtables st' = b_vtables st /\ b_nested st' = true.
Proof.
  unfold OpInfoStart, StartObject. intros H. binv H. bnorm.
  repeat split; auto.
Qed.

Lemma OpInfoStart_forceDefaults st u st' :
  OpInfoStart st = Ok (u, st') -> b_forceDefaults st' = b_forceDefaults st.
Proof. unfold OpInfoStart, StartObject. intros H. binv H. bnorm. reflexivity. Qed.

Lemma PrependUOffsetTRelativeSlot_eq o x d st :
  PrependUOffsetTRelativeSlot o x d st =
  if negb (x =? d) || b_forceDefaults st then (PrependUOffsetTRelative x ;;;; Slot o) st
  else Ok (tt, st).
Proof.
  unfold PrependUOffsetTRelativeSlot, bbind at 1, bget.
  destruct (negb (x =? d) || b_forceDefaults st); reflexivity.
Qed.

Lemma OpInfoAdd_Ok V st u st' :
  OpInfoAddOpKernelTypeStrArgs V st = Ok (u, st') -> V <> 0 ->
  Offset st mod 4 = 0 -> b_vtable st = Some [0] ->
  V <= Offset st /\ b_bytes st' = le_encode 4 (Offset st - V + 4) ++ b_bytes st /\
  valid_number P_uoffset (Offset st - V + 4) = true /\
  b_vtable st' = Some [Offset st + 4] /\ b_objectEnd st' = b_objectEnd st /\
  b_vtables st' = b_vtables st /\ b_nested st' = b_nested st.
Proof.
  unfold OpInfoAddOpKernelTypeStrArgs. rewrite PrependUOffsetTRelativeSlot_eq.
  intros H HV Ha Hvt. apply Z.eqb_neq in HV. rewrite HV in H. cbn [negb orb] in H.
  binv H.
  destruct (PrependUOffsetTRelative_Ok _ _ _ _ H0) as (X & s1 & Hx & Hle & Hv & Hy & _ & HX).
  specialize (HX Ha). subst X.
  destruct Hx as (Hx1 & Hx2 & Hx3 & Hx4 & Hx5). cbn [app] in Hx1.
  assert (Hos : Offset s1 = Offset st) by (unfold Offset; rewrite Hx1; reflexivity).
  pose proof (extends_Offset _ _ _ Hy) as Ho. rewrite blen_encode in Ho.
  destruct Hy as (Hy1 & Hy2 & Hy3 & Hy4 & Hy5).
  unfold Slot in H. binv H. bnorm.
  rewrite Hy2, Hx2, Hvt in H. cbn in H. injection H as <-. subst st'.
  rewrite Hos in Hle, Hv, Hy1. rewrite Hx1 in Hy1. cbn [b_bytes b_vtable b_objectEnd b_vtables b_nested].
  split; [exact Hle|]. split; [exact Hy1|]. split; [exact Hv|].
  split; [rewrite Ho, Hos; change (Z.of_nat 4) with 4; do 2 f_equal; lia|].
  repeat split; congruence.
Qed.

Lemma OpInfoEnd_Ok e st oo st' :
  OpInfoEnd st = Ok (oo, st') -> b_vtable st = Some [e] ->
  Offset st mod 4 = 0 -> vtables_stored st = true ->
  b_nested st = true /\ b_nested st' = false /\
  oo = Offset st + 4 /\ (exists X, b_bytes st' = X ++ b_bytes st) /\
  exists so, get_at P_soffset (b_bytes st') oo = Ok so /\
    get_at P_voffset (b_bytes st') (oo + so)
      = Ok (2 * (Z.of_nat (length (vt_key oo true [e])) + 2)) /\
    entries_stored (b_bytes st') (oo + so - 4) (rev (vt_key oo true [e])) = true /\
    ((vt_lookup (vt_key oo true [e]) (b_vtables st) = Some (oo + so) /\
      b_vtables st' = b_vtables st) \/
     (vt_lookup (vt_key oo true [e]) (b_vtables st) = None /\
      b_vtables st' = (vt_key oo true [e], oo + so) :: b_vtables st)).
Proof.
  unfold OpInfoEnd, EndObject. intros H Hvt Ha Hst. binv H. bnorm.
  match goal with H1 : WriteVtable _ = Ok _ |- _ =>
    apply WriteVtable_single with (e := e) in H1 end;
    [| exact Hvt | exact Ha | ].
  - destruct H as (Ho & HX & Hn & Hrest). cbn [b_nested b_bytes Offset] in *.
    split; [exact Hnest|]. split; [exact Hn|]. split; [exact Ho|]. split; [exact HX|].
    exact Hrest.
  - apply (vtables_stored_app st _ []); reflexivity || exact Hst.
Qed.

Lemma place_bytes_rev_Ok bs st u st' :
  place_bytes_rev bs st = Ok (u, st') -> exists X, extends st st' X.
Proof.
  revert st u st'. induction bs as [|b r IH]; intros st u st' H; cbn [place_bytes_rev] in H.
  - bnorm. exists []. apply extends_refl.
  - binv H. destruct (IH _ _ _ H0) as [X Hx]. apply Place_Ok in H. destruct H as [_ Hy].
    eexists. eapply extends_trans; eauto.
Qed.

Lemma Finish_Ok root fid st out st' :
  Finish root fid st = Ok (out, st') ->
  exists P, out = le_encode 4 (blen out - root) ++ P ++ b_bytes st /\
    blen out <= MAX_BUFFER_SIZE /\ root <= blen out - 4 /\
    valid_number P_uoffset (blen out - root) = true.
Proof.
  unfold Finish. intros H. binv H.
  destruct (valid_number P_uoffset root); [|discriminate]. bnorm.
  apply Prep_Ok in H2. cbv zeta in H2. destruct H2 as [_ Hx0].
  assert (HX : exists X, extends st st3 X).
  { destruct fid as [fid|].
    - binv H3.
      match goal with Hp : Prep _ _ _ = Ok _ , Hq : (if _ then _ else _) _ = Ok _ |- _ =>
        apply Prep_Ok in Hp; cbv zeta in Hp; destruct Hp as [_ Hx1];
        destruct (length fid =? 4)%nat; [|discriminate];
        destruct (place_bytes_rev_Ok _ _ _ _ Hq) as [X Hx2] end.
      eexists. eapply extends_trans; [eapply extends_trans|]; eauto.
    - bnorm. eexists. exact Hx0. }
  destruct HX as [X Hx].
  destruct (PrependUOffsetTRelative_Ok _ _ _ _ H4) as (Y & s2 & Hy & Hle & Hv & Hz & Hm & _).
  bnorm.
  pose proof (extends_Offset _ _ _ Hz) as Ho. rewrite blen_encode in Ho.
  change (blen (b_bytes st4)) with (Offset st4). rewrite Ho. simpl Z.of_nat.
  replace (4 + Offset s2 - root) with (Offset s2 - root + 4) by lia.
  exists (Y ++ X). destruct Hz as (Hz1 & _). destruct Hy as (Hy1 & _). destruct Hx as (Hx1 & _).
  rewrite Hz1, Hy1, Hx1, <- !app_assoc.
  split; [reflexivity|]. unfold MAX_BUFFER_SIZE in *. split; [lia|]. split; [lia|exact Hv].
Qed.

(** ** Reading the finished buffer *)

Lemma rbind_Ok {A B} (m : RM A) (f : A -> RM B) L a :
  m L = (Ok a, L) -> rbind m f L = f a L.
Proof. unfold rbind. intros ->. reflexivity. Qed.

Lemma enforce_number_Ok k n L :
  valid_number k n = true -> enforce_number k n L = (Ok tt, L).
Proof. unfold enforce_number. intros ->. reflexivity. Qed.

Lemma valid_uoffset p : 0 <= p <= 2 ^ 32 - 1 -> valid_number P_uoffset p = true.
Proof.
  intros H. unfold valid_number. cbn [pmin pmax].
  apply andb_true_iff; split; apply Z.leb_le; lia.
Qed.

Lemma Table_init_Ok p L :
  0 <= p <= 2 ^ 32 - 1 -> Table_init p L = (Ok (mkTable p), L).
Proof.
  intros H. unfold Table_init. rewrite (rbind_Ok _ _ _ tt); [reflexivity|].
  apply enforce_number_Ok, valid_uoffset; exact H.
Qed.

Lemma Table_Offset_layout L r so d :
  blen L <= 2 ^ 32 - 1 ->
  get_at P_soffset L r = Ok so -> get_at P_voffset L (r + so) = Ok 6 ->
  get_at P_voffset L (r + so - 4) = Ok d ->
  Table_Offset (mkTable (blen L - r)) 4 L = (Ok d, L).
Proof.
  intros HL H1 H2 H3. unfold Table_Offset. cbn [Pos].
  rewrite (rbind_Ok _ _ _ so) by (apply get_at_Table_Get; auto).
  replace (blen L - r - so) with (blen L - (r + so)) by lia.
  rewrite (rbind_Ok _ _ _ 6) by (apply get_at_Table_Get; auto).
  change (4 <? 6) with true. cbv iota.
  replace (blen L - (r + so) + 4) with (blen L - (r + so - 4)) by lia.
  apply get_at_Table_Get; auto.
Qed.

Lemma Table_VectorLen_layout L r a n :
  get_at P_uoffset L (r - 4) = Ok a -> get_at P_uoffset L (r - 4 - a) = Ok n ->
  Table_VectorLen (mkTable (blen L - r)) 4 L = (Ok n, L).
Proof.
  intros H1 H2. unfold Table_VectorLen. cbn [Pos].
  rewrite (rbind_Ok _ _ _ tt) by (apply enforce_number_Ok; reflexivity).
  replace (4 + (blen L - r)) with (blen L - (r - 4)) by lia.
  rewrite (rbind_Ok _ _ _ a) by (apply get_at_encode_Get; auto).
  replace (blen L - (r - 4) + a) with (blen L - (r - 4 - a)) by lia.
  apply get_at_encode_Get; auto.
Qed.

Lemma Table_Vector_layout L r a :
  blen L <= 2 ^ 32 - 1 -> get_at P_uoffset L (r - 4) = Ok a ->
  Table_Vector (mkTable (blen L - r)) 4 L = (Ok (blen L - (r - 4 - a) + 4), L).
Proof.
  intros HL H1. unfold Table_Vector. cbn [Pos].
  rewrite (rbind_Ok _ _ _ tt) by (apply enforce_number_Ok; reflexivity).
  replace (4 + (blen L - r)) with (blen L - (r - 4)) by lia.
  rewrite (rbind_Ok _ _ _ a) by (apply get_at_Table_Get; auto).
  unfold rret. do 3 f_equal. lia.
Qed.

Lemma Table_Indirect_layout t L o v :
  blen L <= 2 ^ 32 - 1 -> get_at P_uoffset L o = Ok v ->
  Table_Indirect t (blen L - o) L = (Ok (blen L - o + v), L).
Proof.
  intros HL H. pose proof (get_at_bounds _ _ _ _ H) as Hb.
  unfold Table_Indirect.
  rewrite (rbind_Ok _ _ _ tt) by (apply enforce_number_Ok, valid_uoffset; lia).
  rewrite (rbind_Ok _ _ _ v) by (apply get_at_encode_Get; auto).
  reflexivity.
Qed.

Lemma GetRootAsOpInfo_layout L r :
  get_at P_uoffset L (blen L) = Ok (blen L - r) -> 0 <= blen L - r <= 2 ^ 32 - 1 ->
  GetRootAsOpInfo 0 L = (Ok (mkTable (blen L - r)), L).
Proof.
  intros H Hr. unfold GetRootAsOpInfo.
  apply get_at_encode_Get in H. rewrite Z.sub_diag in H.
  rewrite (rbind_Ok _ _ _ _ H). rewrite Z.add_0_r. apply Table_init_Ok; exact Hr.
Qed.

(** Where [build_OpInfo] puts things, in builder offsets of the output [out]:
    the root offset, the table at [V + 8] with its vtable (size 6, entry 4),
    the field at [V + 4] pointing 4 bytes on to the vector at [V]. *)
Lemma build_OpInfo_layout ts fid st0 out st1 :
  vtables_stored st0 = true -> build_OpInfo ts fid st0 = Ok (out, st1) ->
  exists V so,
    blen out <= MAX_BUFFER_SIZE /\
    get_at P_uoffset out (blen out) = Ok (blen out - (V + 8)) /\
    V + 8 <= blen out - 4 /\
    get_at P_soffset out (V + 8) = Ok so /\
    get_at P_voffset out (V + 8 + so) = Ok 6 /\
    get_at P_voffset out (V + 8 + so - 4) = Ok 4 /\
    get_at P_uoffset out (V + 8 - 4) = Ok 4 /\
    get_at P_uoffset out (V + 8 - 4 - 4) = Ok (Z.of_nat (length ts)) /\
    forall j, (j < length ts)%nat ->
      nth j ts 0 <= V - 8 - 4 * Z.of_nat j /\
      get_at P_uoffset out (V - 4 - 4 * Z.of_nat j)
        = Ok (V - 4 - 4 * Z.of_nat j - nth j ts 0).
Proof.
  intros Hst H. unfold build_OpInfo in H. binv H.
  match goal with
  | Hw : write_OpKernelTypeStrArgs _ _ = Ok (?v, ?sa), Hs : OpInfoStart _ = Ok (_, ?sb),
    Ha : OpInfoAddOpKernelTypeStrArgs _ _ = Ok (_, ?sc), He : OpInfoEnd _ = Ok (?o, ?sd),
    Hf : Finish _ _ _ = Ok _ |- _ =>
      rename v into V, sa into sA, sb into sB, sc into sC, o into oo, sd into sD;
      apply write_vec_Ok in Hw; apply OpInfoStart_Ok in Hs;
      rename Ha into Hadd; rename He into Hend; rename Hf into Hfin;
      destruct Hw as (Hn0 & Hn1 & Hvs1 & [X1 Hb1] & HV & Ha1 & Hlen & Hel);
      destruct Hs as (_ & Hb2 & Hvt2 & Hoe2 & Hvs2 & Hn2)
  end.
  pose proof (get_at_bounds _ _ _ _ Hlen) as HVb. cbn [bytewidth] in HVb.
  assert (Ho2 : Offset sB = V) by (unfold Offset; rewrite Hb2; symmetry; exact HV).
  apply OpInfoAdd_Ok in Hadd; [| lia | rewrite Ho2; exact Ha1 | exact Hvt2].
  destruct Hadd as (_ & Hb3 & Hv3 & Hvt3 & _ & Hvs3 & Hn3).
  rewrite Ho2 in Hb3, Hv3, Hvt3. replace (V - V + 4) with 4 in Hb3 by lia.
  assert (HoC : Offset sC = V + 4).
  { unfold Offset. rewrite Hb3, blen_app, blen_encode. fold (Offset sB). rewrite Ho2.
    simpl Z.of_nat. lia. }
  apply OpInfoEnd_Ok with (e := V + 4) in Hend.
  2: exact Hvt3.
  2: { rewrite HoC, Zplus_mod, Ha1. reflexivity. }
  2: { apply (vtables_stored_app st0 _ (le_encode 4 4 ++ X1)).
       - rewrite Hb3, Hb2, Hb1, app_assoc. reflexivity.
       - congruence.
       - exact Hst. }
  destruct Hend as (_ & _ & Hoo & [X4 Hb4] & so & Hs1 & Hs2 & Hs3 & _).
  rewrite HoC in Hoo. replace (V + 4 + 4) with (V + 8) in Hoo by lia. subst oo.
  replace (vt_key (V + 8) true [V + 4]) with [4] in Hs2, Hs3.
  2: { cbn [vt_key]. replace (V + 4 =? 0) with false by (symmetry; apply Z.eqb_neq; lia).
       f_equal. lia. }
  cbn [rev app entries_stored length] in Hs2, Hs3.
  rewrite andb_true_r in Hs3. apply res_is_Ok in Hs3.
  destruct (Finish_Ok _ _ _ _ _ Hfin) as (P & Hout & Hmax & Hroot & Hvr).
  assert (Happ : forall k x v, get_at k (b_bytes sD) x = Ok v -> get_at k out x = Ok v).
  { intros k x v Hg. rewrite Hout, app_assoc. apply get_at_app. exact Hg. }
  assert (Happ4 : forall k x v, get_at k (b_bytes sA) x = Ok v -> get_at k out x = Ok v).
  { intros k x v Hg. apply Happ. rewrite Hb4, Hb3, Hb2, app_assoc. apply get_at_app. exact Hg. }
  exists V, so. split; [exact Hmax|]. split.
  { rewrite Hout at 1. apply (get_at_place_at P_uoffset); [|exact Hvr].
    rewrite Hout at 1. rewrite !blen_app, !blen_encode. simpl Z.of_nat. lia. }
  split; [lia|].
  split; [apply Happ; exact Hs1|].
  split; [apply Happ; exact Hs2|].
  split; [apply Happ; exact Hs3|].
  split.
  { apply Happ. rewrite Hb4. apply get_at_app. rewrite Hb3.
    apply (get_at_place_at P_uoffset); [|reflexivity].
    rewrite Hb2. fold (Offset sA). rewrite <- HV. simpl Z.of_nat. lia. }
  split.
  { apply Happ4. replace (V + 8 - 4 - 4) with V by lia. exact Hlen. }
  intros j Hj. destruct (Hel j Hj) as [Hle Hg]. split; [exact Hle|].
  apply Happ4. exact Hg.
Qed.

Lemma Prep4_idem st sp : Prep 4 0 st = Ok (tt, sp) -> Prep 4 0 sp = Ok (tt, sp).
Proof.
  intros H.
  assert (H' : Prep (2 ^ 2) 0 st = Ok (tt, sp)) by exact H.
  destruct (Prep_pow2 2 0 st tt sp ltac:(lia) H') as (X & Hx & _ & Ha & Hm).
  change (2 ^ 2) with 4 in Ha, Hm. rewrite Z.add_0_r in Ha, Hm.
  assert (Hal : Z.land (Z.lnot (Offset sp + 0) + 1) (4 - 1) = 0).
  { change (4 - 1) with (2 ^ 2 - 1). rewrite align_pow2 by lia.
    rewrite Z.add_0_r. apply Z.mod_opp_l_z; [lia|exact Ha]. }
  unfold Prep at 1. rewrite Hal.
  destruct (MAX_BUFFER_SIZE <? Offset sp + 0 + 4 + 0) eqn:E; [apply Z.ltb_lt in E; lia|].
  unfold Prep in H. destruct (MAX_BUFFER_SIZE <? _); [discriminate|].
  injection H as Hs. subst sp. cbn [b_minalign b_bytes b_vtable b_objectEnd b_vtables b_nested repeat app].
  destruct (4 >? b_minalign st) eqn:E2; [reflexivity|]. rewrite E2. reflexivity.
Qed.

(** [WriteVtable] starts with [Prep(4, 0)]: on an unaligned builder it
    runs as on the builder padded by that [Prep]. *)
Lemma WriteVtable_pad st r :
  WriteVtable st = Ok r ->
  exists sp X, extends st sp X /\ Offset sp mod 4 = 0 /\ WriteVtable sp = Ok r.
Proof.
  intros H. unfold WriteVtable, PrependSOffsetTRelative in H.
  cbv delta [bbind] beta in H.
  destruct (Prep 4 0 st) as [[[] sp]|e] eqn:E; [|discriminate].
  assert (E' : Prep (2 ^ 2) 0 st = Ok (tt, sp)) by exact E.
  destruct (Prep_pow2 2 0 st tt sp ltac:(lia) E') as (X & Hx & _ & Ha & _).
  exists sp, X. split; [exact Hx|]. split; [rewrite Z.add_0_r in Ha; exact Ha|].
  unfold WriteVtable, PrependSOffsetTRelative. cbv delta [bbind] beta.
  rewrite (Prep4_idem _ _ E). exact H.
Qed.

Lemma Table_Offset_short t L so vend :
  Table_Get t P_soffset (Pos t) L = (Ok so, L) ->
  Table_Get t P_voffset (Pos t - so) L = (Ok vend, L) -> vend <= 4 ->
  Table_Offset t 4 L = (Ok 0, L).
Proof.
  intros H1 H2 H3. unfold Table_Offset.
  rewrite (rbind_Ok _ _ _ _ H1). cbv zeta. rewrite (rbind_Ok _ _ _ _ H2).
  replace (4 <? vend) with false by (symmetry; apply Z.ltb_ge; exact H3).
  reflexivity.
Qed.

Lemma absent_accessors t L :
  Table_Offset t 4 L = (Ok 0, L) ->
  run (OpKernelTypeStrArgsLength t) L = Ok 0 /\
  run (OpKernelTypeStrArgsIsNone t) L = Ok true /\
  forall j, run (OpKernelTypeStrArgs t j) L = Ok None.
Proof.
  intros H. unfold run, OpKernelTypeStrArgsLength, OpKernelTypeStrArgsIsNone,
    OpKernelTypeStrArgs.
  rewrite !(rbind_Ok _ _ _ _ H). split; [reflexivity|]. split; [reflexivity|].
  intros j. rewrite (rbind_Ok _ _ _ _ H). reflexivity.
Qed.

Lemma OpInfoAdd_default st :
  b_forceDefaults st = false -> OpInfoAddOpKernelTypeStrArgs 0 st = Ok (tt, st).
Proof.
  intros Hf. unfold OpInfoAddOpKernelTypeStrArgs. rewrite PrependUOffsetTRelativeSlot_eq, Hf.
  reflexivity.
Qed.

Lemma build_OpInfo_without_field_layout fid st0 out st1 :
  vtables_stored st0 = true -> b_forceDefaults st0 = false ->
  build_OpInfo_without_field fid st0 = Ok (out, st1) ->
  exists oo so,
    blen out <= MAX_BUFFER_SIZE /\
    get_at P_uoffset out (blen out) = Ok (blen out - oo) /\
    0 <= blen out - oo <= 2 ^ 32 - 1 /\
    get_at P_soffset out oo = Ok so /\
    get_at P_voffset out (oo + so) = Ok 4.
Proof.
  intros Hst Hfd H. unfold build_OpInfo_without_field in H. binv H.
  match goal with
  | Hs : OpInfoStart _ = Ok (_, ?sb), Ha : OpInfoAddOpKernelTypeStrArgs 0 _ = Ok (_, ?sc),
    He : OpInfoEnd _ = Ok (?o, ?sd), Hf : Finish _ _ _ = Ok _ |- _ =>
      rename sb into sB, sc into sC, o into oo, sd into sD;
      pose proof (OpInfoStart_forceDefaults _ _ _ Hs) as Hfd2;
      apply OpInfoStart_Ok in Hs; rename Ha into Hadd; rename He into Hend;
      rename Hf into Hfin; destruct Hs as (_ & Hb2 & Hvt2 & Hoe2 & Hvs2 & Hn2)
  end.
  rewrite Hfd in Hfd2. rewrite (OpInfoAdd_default _ Hfd2) in Hadd.
  apply Ok_pair_inj in Hadd. destruct Hadd as [_ HsC]. subst sC.
  unfold OpInfoEnd, EndObject in Hend. binv Hend. bnorm.
  destruct (WriteVtable_pad _ _ Hend) as (sp & X & Hx & Ha & Hw).
  destruct Hx as (Hx1 & Hx2 & Hx3 & Hx4 & Hx5). cbn [b_bytes b_vtable b_vtables b_nested] in *.
  apply WriteVtable_single with (e := 0) in Hw; [| rewrite Hx2; exact Hvt2 | exact Ha |].
  2: { apply (vtables_stored_app st0 _ X); [rewrite Hx1, Hb2; reflexivity | congruence | exact Hst]. }
  destruct Hw as (_ & [X4 Hb4] & _ & so & Hs1 & Hs2 & _).
  cbn [vt_key Z.eqb length Z.of_nat] in Hs2.
  destruct (Finish_Ok _ _ _ _ _ Hfin) as (P & Hout & Hmax & Hroot & Hvr).
  assert (Happ : forall k x v, get_at k (b_bytes sD) x = Ok v -> get_at k out x = Ok v).
  { intros k x v Hg. rewrite Hout, app_assoc. apply get_at_app. exact Hg. }
  exists oo, so. split; [exact Hmax|]. split.
  { rewrite Hout at 1. apply (get_at_place_at P_uoffset); [|exact Hvr].
    rewrite Hout at 1. rewrite !blen_app, !blen_encode. simpl Z.of_nat. lia. }
  split; [apply valid_number_spec in Hvr; cbn [pmin pmax] in Hvr; lia|].
  split; [apply Happ; exact Hs1|apply Happ; exact Hs2].
Qed.

(** ** Readers leave the buffer unchanged *)

Lemma rret_pres {A} (a : A) : preserves (rret a).
Proof. intros L. reflexivity. Qed.

Lemma rfail_pres {A} e : preserves (@rfail A e).
Proof. intros L. reflexivity. Qed.

Lemma encode_Get_pres k p : preserves (encode_Get k p).
Proof. intros L. apply encode_Get_state. Qed.

Lemma enforce_number_pres k n : preserves (enforce_number k n).
Proof. unfold enforce_number. destruct (valid_number k n); intros L; reflexivity. Qed.

Lemma rbind_pres {A B} (m : RM A) (f : A -> RM B) :
  preserves m -> (forall a, preserves (f a)) -> preserves (rbind m f).
Proof.
  intros Hm Hf L. unfold rbind. specialize (Hm L).
  destruct (m L) as [[a|e] L']; cbn in Hm; subst L'; [apply Hf|reflexivity].
Qed.

Create HintDb pres.
#[local] Hint Resolve rret_pres rfail_pres encode_Get_pres enforce_number_pres : pres.

Ltac solve_pres :=
  repeat match goal with
  | |- preserves (rbind _ _) => apply rbind_pres; [|intros ?]
  | |- preserves (if ?b then _ else _) => destruct b
  | |- preserves _ => progress cbv beta zeta
  end; auto with pres.

Lemma Table_Get_pres t k o : preserves (Table_Get t k o).
Proof. unfold Table_Get. solve_pres. Qed.
#[local] Hint Resolve Table_Get_pres : pres.

Lemma Table_init_pres p : preserves (Table_init p).
Proof. unfold Table_init. solve_pres. Qed.
#[local] Hint Resolve Table_init_pres : pres.

Lemma Table_Offset_pres t v : preserves (Table_Offset t v).
Proof. unfold Table_Offset. solve_pres. Qed.

Lemma Table_Indirect_pres t o : preserves (Table_Indirect t o).
Proof. unfold Table_Indirect. solve_pres. Qed.

Lemma Table_VectorLen_pres t o : preserves (Table_VectorLen t o).
Proof. unfold Table_VectorLen. solve_pres. Qed.

Lemma Table_Vector_pres t o : preserves (Table_Vector t o).
Proof. unfold Table_Vector. solve_pres. Qed.
#[local] Hint Resolve Table_Offset_pres Table_Indirect_pres Table_VectorLen_pres
  Table_Vector_pres : pres.

Lemma OpInfo_Init_pres p : preserves (OpInfo_Init p).
Proof. unfold OpInfo_Init. solve_pres. Qed.
#[local] Hint Resolve OpInfo_Init_pres : pres.

Lemma GetRootAsOpInfo_pres offset : preserves (GetRootAsOpInfo offset).
Proof. unfold GetRootAsOpInfo. solve_pres. Qed.

Lemma OpKernelTypeStrArgs_pres t j : preserves (OpKernelTypeStrArgs t j).
Proof. unfold OpKernelTypeStrArgs. solve_pres. Qed.

Lemma OpKernelTypeStrArgsLength_pres t : preserves (OpKernelTypeStrArgsLength t).
Proof. unfold OpKernelTypeStrArgsLength. solve_pres. Qed.

Lemma OpKernelTypeStrArgsIsNone_pres t : preserves (OpKernelTypeStrArgsIsNone t).
Proof. unfold OpKernelTypeStrArgsIsNone. solve_pres. Qed.

Lemma run_pres {A} (m : RM A) L a : preserves m -> run m L = Ok a -> m L = (Ok a, L).
Proof.
  intros Hm H. specialize (Hm L). unfold run in H.
  destruct (m L) as [r L']. cbn in *. subst. reflexivity.
Qed.

Lemma run_rbind {A B} (m : RM A) (f : A -> RM B) L :
  preserves m -> run (rbind m f) L = match run m L with Ok a => run (f a) L | Err e => Err e end.
Proof.
  intros Hm. specialize (Hm L). unfold run, rbind.
  destruct (m L) as [[a|e] L']; cbn in *; subst; reflexivity.
Qed.

(** ** Decoded values of a [bytes] buffer *)

Lemma forallb_firstn {X} (f : X -> bool) n l :
  forallb f l = true -> forallb f (firstn n l) = true.
Proof.
  revert n; induction l as [|x l IH]; intros [|n] H; cbn in *; auto.
  apply andb_true_iff in H as [H1 H2]. rewrite H1. cbn. auto.
Qed.

Lemma forallb_skipn {X} (f : X -> bool) n l :
  forallb f l = true -> forallb f (skipn n l) = true.
Proof.
  revert n; induction l as [|x l IH]; intros [|n] H; cbn in *; auto.
  apply andb_true_iff in H as [H1 H2]. auto.
Qed.

Lemma le_decode_bound bs :
  is_bytes bs = true -> 0 <= le_decode bs < 256 ^ Z.of_nat (length bs).
Proof.
  induction bs as [|b r IH]; intros H; cbn [le_decode length]; [cbn; lia|].
  unfold is_bytes in H. cbn [forallb] in H. apply andb_true_iff in H as [Hb Hr].
  apply andb_true_iff in Hb as [Hb1 Hb2]. apply Z.leb_le in Hb1. apply Z.leb_le in Hb2.
  specialize (IH Hr). rewrite Nat2Z.inj_succ, Z.pow_succ_r by lia. nia.
Qed.

Lemma encode_Get_voffset_bound L p v :
  is_bytes L = true -> run (encode_Get P_voffset p) L = Ok v -> 0 <= v < 2 ^ 16.
Proof.
  intros HL H. unfold run, encode_Get in H.
  destruct (unpack_from (bytewidth P_voffset) L p) as [bs|e] eqn:E; [|discriminate].
  cbn in H. injection H as <-.
  unfold unpack_from in E.
  destruct (_ <? 0); [discriminate|]. destruct (_ <? _); [discriminate|].
  injection E as <-.
  assert (Hb : is_bytes (firstn (bytewidth P_voffset) (skipn (Z.to_nat (if p <? 0 then p + blen L else p)) L)) = true)
    by (apply forallb_firstn, forallb_skipn; exact HL).
  pose proof (le_decode_bound _ Hb) as Hd.
  pose proof (firstn_le_length (bytewidth P_voffset)
                (skipn (Z.to_nat (if p <? 0 then p + blen L else p)) L)) as Hl.
  change (bytewidth P_voffset) with 2%nat in *.
  assert (256 ^ Z.of_nat (length (firstn 2 (skipn (Z.to_nat (if p <? 0 then p + blen L else p)) L)))
          <= 2 ^ 16).
  { change (2 ^ 16) with (256 ^ 2). apply Z.pow_le_mono_r; lia. }
  set (X := firstn 2 (skipn (Z.to_nat (if p <? 0 then p + blen L else p)) L)) in *.
  change (0 <= le_decode X < 2 ^ 16).
  match type of Hd with _ <= _ < ?q => set (qq := q) in * end. lia.
Qed.

Lemma Table_Offset_bound t v L o :
  is_bytes L = true -> run (Table_Offset t v) L = Ok o -> 0 <= o < 2 ^ 16.
Proof.
  intros HL H. unfold Table_Offset in H.
  rewrite run_rbind in H by auto with pres.
  destruct (run (Table_Get t P_soffset (Pos t)) L) as [so|e]; [|discriminate].
  cbv zeta in H. rewrite run_rbind in H by auto with pres.
  destruct (run (Table_Get t P_voffset (Pos t - so)) L) as [ve|e]; [|discriminate].
  destruct (v <? ve).
  - unfold Table_Get in H. rewrite run_rbind in H by auto with pres.
    destruct (run (enforce_number P_uoffset (Pos t - so + v)) L); [|discriminate].
    eapply encode_Get_voffset_bound; eauto.
  - unfold run, rret in H. cbn in H. injection H as <-. lia.
Qed.

(** ** [GetRootAsOpInfo] *)

Lemma GetRootAsOpInfo_spec buf offset n :
  run (encode_Get P_uoffset offset) buf = Ok n ->
  run (GetRootAsOpInfo offset) buf =
  if valid_number P_uoffset (n + offset) then Ok (mkTable (n + offset)) else Err TypeError.
Proof.
  intros H. unfold GetRootAsOpInfo. rewrite run_rbind by auto with pres. rewrite H.
  unfold run, OpInfo_Init, Table_init, enforce_number.
  destruct (valid_number P_uoffset (n + offset)); reflexivity.
Qed.

Lemma run_enforce_ok {B} k n (f : unit -> RM B) L :
  valid_number k n = true -> run (rbind (enforce_number k n) f) L = run (f tt) L.
Proof. intros H. unfold run, rbind, enforce_number. rewrite H. reflexivity. Qed.

(** ** The identifier check *)

Lemma bytes_eqb_refl a : bytes_eqb a a = true.
Proof. induction a as [|x a IH]; cbn; auto. rewrite Z.eqb_refl. exact IH. Qed.

Lemma bytes_eqb_length a b : bytes_eqb a b = true -> length a = length b.
Proof. intros H. apply bytes_eqb_eq in H. subst. reflexivity. Qed.

Lemma OpInfoBufferHasIdentifier_nonneg buf offset sp :
  0 <= offset ->
  OpInfoBufferHasIdentifier buf offset sp = true <->
  identifier_at buf (offset + if sp then 8 else 4) = Some ORTM.
Proof.
  intros Ho. unfold OpInfoBufferHasIdentifier, BufferHasIdentifier, GetBufferIdentifier,
    identifier_at, py_slice, FILE_IDENTIFIER_LENGTH.
  set (p := offset + (if sp then 8 else 4)).
  replace ((if sp then offset + 4 else offset) + 4) with p by (unfold p; destruct sp; lia).
  assert (Hp : 4 <= p) by (unfold p; destruct sp; lia).
  unfold py_norm.
  replace (p <? 0) with false by (symmetry; apply Z.ltb_ge; lia).
  replace (p + 4 <? 0) with false by (symmetry; apply Z.ltb_ge; lia).
  pose proof (blen_nonneg buf) as Hb.
  replace ((0 <=? p) && (p + 4 <=? blen buf)) with (p + 4 <=? blen buf)
    by (replace (0 <=? p) with true by (symmetry; apply Z.leb_le; lia); reflexivity).
  destruct (p + 4 <=? blen buf) eqn:E.
  - apply Z.leb_le in E.
    rewrite Z.min_l by lia. rewrite Z.min_l by lia.
    replace (Z.to_nat (p + 4 - p)) with 4%nat by lia.
    split.
    + intros H. apply bytes_eqb_eq in H. rewrite <- H. reflexivity.
    + intros H.
      assert (Hx : firstn 4 (skipn (Z.to_nat p) buf) = ORTM) by (injection H; auto).
      rewrite Hx. apply bytes_eqb_refl.
  - apply Z.leb_gt in E. split; [|discriminate]. intros H.
    apply bytes_eqb_length in H. rewrite length_firstn, length_skipn in H.
    cbn [ORTM length] in H. unfold blen in *. lia.
Qed.

(** * Claims *)

(** C1 (round trip of [opKernelTypeStrArgs]). Writing an [OpInfo] whose
    [opKernelTypeStrArgs] vector holds the tables [ts] (builder offsets of
    tables that were already written) with [OpInfoStartOpKernelTypeStrArgsVector],
    [OpInfoAddOpKernelTypeStrArgs], [OpInfoStart]/[OpInfoEnd] and [Finish],
    then reading the output with [GetRootAsOpInfo]: the field is present, its
    length is [length ts], and element [j] is the view of exactly the table
    written at builder offset [nth j ts], which sits at position
    [len out - nth j ts] of the output. Any builder state whose dedup
    dictionary describes its own bytes ([vtables_stored]) may be used. *)
Theorem OpInfo_roundtrip ts fid st0 out st1 :
  vtables_stored st0 = true -> Forall (fun t => 0 <= t) ts ->
  build_OpInfo ts fid st0 = Ok (out, st1) ->
  exists r, run (GetRootAsOpInfo 0) out = Ok r /\
    run (OpKernelTypeStrArgsIsNone r) out = Ok false /\
    run (OpKernelTypeStrArgsLength r) out = Ok (Z.of_nat (length ts)) /\
    forall j, (j < length ts)%nat ->
      run (OpKernelTypeStrArgs r (Z.of_nat j)) out
        = Ok (Some (mkTable (blen out - nth j ts 0))).
Proof.
  intros Hst HF H.
  destruct (build_OpInfo_layout _ _ _ _ _ Hst H)
    as (V & so & Hmax & Hr & Hroot & Hs1 & Hs2 & Hs3 & Hf & Hl & Hel).
  unfold MAX_BUFFER_SIZE in Hmax.
  assert (HL : blen out <= 2 ^ 32 - 1) by lia.
  pose proof (get_at_bounds _ _ _ _ Hl) as HVb.
  change (Z.of_nat (bytewidth P_uoffset)) with 4 in HVb.
  assert (HG : GetRootAsOpInfo 0 out = (Ok (mkTable (blen out - (V + 8))), out)).
  { apply GetRootAsOpInfo_layout; [exact Hr|lia]. }
  assert (HO : Table_Offset (mkTable (blen out - (V + 8))) 4 out = (Ok 4, out)).
  { apply (Table_Offset_layout _ _ so); assumption. }
  exists (mkTable (blen out - (V + 8))).
  split; [unfold run; rewrite HG; reflexivity|].
  split.
  { unfold run, OpKernelTypeStrArgsIsNone. rewrite (rbind_Ok _ _ _ _ HO). reflexivity. }
  split.
  { unfold run, OpKernelTypeStrArgsLength. rewrite (rbind_Ok _ _ _ _ HO).
    change (negb (4 =? 0)) with true. cbv iota.
    rewrite (Table_VectorLen_layout _ _ 4 _ Hf Hl). reflexivity. }
  intros j Hj. destruct (Hel j Hj) as [Hle Hg].
  pose proof (proj1 (Forall_nth _ _) HF j 0 Hj) as Ht. cbv beta in Ht.
  unfold run, OpKernelTypeStrArgs. rewrite (rbind_Ok _ _ _ _ HO).
  change (negb (4 =? 0)) with true. cbv iota.
  rewrite (rbind_Ok _ _ _ _ (Table_Vector_layout _ _ _ HL Hf)).
  replace (blen out - (V + 8 - 4 - 4) + 4 + Z.of_nat j * 4)
    with (blen out - (V - 4 - 4 * Z.of_nat j)) by lia.
  rewrite (rbind_Ok _ _ _ _ (Table_Indirect_layout _ _ _ _ HL Hg)).
  replace (blen out - (V - 4 - 4 * Z.of_nat j) + (V - 4 - 4 * Z.of_nat j - nth j ts 0))
    with (blen out - nth j ts 0) by lia.
  rewrite (rbind_Ok _ _ _ _ (Table_init_Ok (blen out - nth j ts 0) out ltac:(lia))).
  reflexivity.
Qed.

Lemma OpInfo_roundtrip_witness :
  exists ts st0 out st1,
    three_empty_tables new_Builder = Ok (ts, st0) /\
    vtables_stored st0 = true /\ Forall (fun t => 0 <= t) ts /\
    build_OpInfo ts (Some ORTM) st0 = Ok (out, st1) /\
    exists r, run (GetRootAsOpInfo 0) out = Ok r /\
      run (OpKernelTypeStrArgsIsNone r) out = Ok false /\
      run (OpKernelTypeStrArgsLength r) out = Ok (Z.of_nat (length ts)) /\
      forall j, (j < length ts)%nat ->
        run (OpKernelTypeStrArgs r (Z.of_nat j)) out
          = Ok (Some (mkTable (blen out - nth j ts 0))).
Proof.
  do 4 eexists.
  split; [cbv; reflexivity|].
  assert (Hv : vtables_stored (mkBuilder [248; 255; 255; 255; 252; 255; 255; 255; 4; 0; 4; 0; 4; 0; 0; 0]
                 None 12 4 [([], 8)] false false) = true) by (vm_compute; reflexivity).
  assert (HF : Forall (fun t => 0 <= t) [4; 12; 16]) by (repeat constructor; lia).
  split; [exact Hv|]. split; [exact HF|].
  assert (Hb : build_OpInfo [4; 12; 16] (Some ORTM)
                 (mkBuilder [248; 255; 255; 255; 252; 255; 255; 255; 4; 0; 4; 0; 4; 0; 0; 0]
                    None 12 4 [([], 8)] false false)
               = Ok (ltac:(let v := eval vm_compute in
                             (match build_OpInfo [4; 12; 16] (Some ORTM)
                                (mkBuilder [248; 255; 255; 255; 252; 255; 255; 255; 4; 0; 4; 0; 4; 0; 0; 0]
                                   None 12 4 [([], 8)] false false) with
                              | Ok r => r | Err _ => ([], new_Builder) end) in exact v)))
    by (vm_compute; reflexivity).
  split; [exact Hb|].
  exact (OpInfo_roundtrip _ _ _ _ _ Hv HF Hb).
Defined.

(** C2 (absent field). If [OpInfoAddOpKernelTypeStrArgs] is called with
    the default value 0 on a builder that does not force defaults (the
    [forceDefaults] of a new [Builder]; with [ForceDefaults(True)] the
    slot helper stores the 0 as well), nothing is stored: on the finished
    buffer the field's vtable offset is 0, the length is 0, every element
    access gives [None] and [OpKernelTypeStrArgsIsNone] is [true]. *)
Theorem OpInfo_absent_field fid st0 out st1 :
  vtables_stored st0 = true -> b_forceDefaults st0 = false ->
  build_OpInfo_without_field fid st0 = Ok (out, st1) ->
  exists r, run (GetRootAsOpInfo 0) out = Ok r /\
    run (Table_Offset r 4) out = Ok 0 /\
    run (OpKernelTypeStrArgsLength r) out = Ok 0 /\
    (forall j, run (OpKernelTypeStrArgs r j) out = Ok None) /\
    run (OpKernelTypeStrArgsIsNone r) out = Ok true.
Proof.
  intros Hst Hfd H.
  destruct (build_OpInfo_without_field_layout _ _ _ _ Hst Hfd H)
    as (oo & so & Hmax & Hr & Hb & Hs1 & Hs2).
  unfold MAX_BUFFER_SIZE in Hmax.
  assert (HL : blen out <= 2 ^ 32 - 1) by lia.
  assert (HO : Table_Offset (mkTable (blen out - oo)) 4 out = (Ok 0, out)).
  { apply (Table_Offset_short _ _ so 4); [cbn [Pos]; apply get_at_Table_Get; auto| |lia].
    cbn [Pos]. replace (blen out - oo - so) with (blen out - (oo + so)) by lia.
    apply get_at_Table_Get; auto. }
  destruct (absent_accessors _ _ HO) as (H1 & H2 & H3).
  exists (mkTable (blen out - oo)).
  split; [unfold run; rewrite (GetRootAsOpInfo_layout _ _ Hr Hb); reflexivity|].
  split; [unfold run; rewrite HO; reflexivity|].
  auto.
Qed.

Lemma OpInfo_absent_field_witness :
  exists out st1,
    vtables_stored new_Builder = true /\ b_forceDefaults new_Builder = false /\
    build_OpInfo_without_field (Some ORTM) new_Builder = Ok (out, st1) /\
    exists r, run (GetRootAsOpInfo 0) out = Ok r /\
      run (Table_Offset r 4) out = Ok 0 /\
      run (OpKernelTypeStrArgsLength r) out = Ok 0 /\
      (forall j, run (OpKernelTypeStrArgs r j) out = Ok None) /\
      run (OpKernelTypeStrArgsIsNone r) out = Ok true.
Proof.
  assert (Hv : vtables_stored new_Builder = true) by reflexivity.
  assert (Hb : build_OpInfo_without_field (Some ORTM) new_Builder
               = Ok (ltac:(let v := eval vm_compute in
                             (match build_OpInfo_without_field (Some ORTM) new_Builder with
                              | Ok r => r | Err _ => ([], new_Builder) end) in exact v)))
    by (vm_compute; reflexivity).
  do 2 eexists. split; [exact Hv|]. split; [reflexivity|]. split; [exact Hb|].
  exact (OpInfo_absent_field _ _ _ _ Hv eq_refl Hb).
Defined.

(** C3 (short vtable). If the [OpInfo] table's vtable is at most 4 bytes
    long (so slot 0, at byte 4, is past its end), the field lookup
    [Table_Offset 4] returns 0 and the accessors report the field absent:
    length 0, [OpKernelTypeStrArgsIsNone] true, every element [None]. *)
Theorem short_vtable_absent (t : OpInfo) L so vend :
  run (Table_Get t P_soffset (Pos t)) L = Ok so ->
  run (Table_Get t P_voffset (Pos t - so)) L = Ok vend -> vend <= 4 ->
  run (Table_Offset t 4) L = Ok 0 /\
  run (OpKernelTypeStrArgsLength t) L = Ok 0 /\
  run (OpKernelTypeStrArgsIsNone t) L = Ok true /\
  forall j, run (OpKernelTypeStrArgs t j) L = Ok None.
Proof.
  intros H1 H2 H3.
  assert (HO : Table_Offset t 4 L = (Ok 0, L)).
  { apply (Table_Offset_short _ _ so vend); auto; apply run_pres; auto with pres. }
  destruct (absent_accessors _ _ HO) as (A1 & A2 & A3).
  split; [unfold run; rewrite HO; reflexivity|]. auto.
Qed.

Lemma short_vtable_absent_witness :
  run (OpKernelTypeStrArgsLength (mkTable 4)) [4; 0; 4; 0; 4; 0; 0; 0] = Ok 0 /\
  run (OpKernelTypeStrArgsIsNone (mkTable 4)) [4; 0; 4; 0; 4; 0; 0; 0] = Ok true.
Proof.
  destruct (short_vtable_absent (mkTable 4) [4; 0; 4; 0; 4; 0; 0; 0] 4 4
              ltac:(vm_compute; reflexivity) ltac:(vm_compute; reflexivity) ltac:(lia))
    as (_ & A & B & _).
  split; [exact A|exact B].
Defined.

(** Counterexample to C4: with a negative [offset] Python slicing counts
    from the end, so on a 12-byte buffer holding "ORTM" at bytes 4..7 the
    check at [offset = -12] answers [True], although there are no bytes at
    position [offset + 4 = -8]. *)
Lemma OpInfoBufferHasIdentifier_negative_offset :
  OpInfoBufferHasIdentifier [0; 0; 0; 0; 79; 82; 84; 77; 0; 0; 0; 0] (-12) false = true /\
  identifier_at [0; 0; 0; 0; 79; 82; 84; 77; 0; 0; 0; 0] (-12 + 4) = None.
Proof. split; vm_compute; reflexivity. Qed.

(** C4, amended: for every [offset >= 0] (and every buffer, including one
    too short), [OpInfoBufferHasIdentifier buf offset size_prefixed] is
    true exactly when the buffer holds the 4 bytes "ORTM" at [offset + 4]
    ([offset + 8] when size-prefixed); it is a total boolean function. *)
Theorem OpInfoBufferHasIdentifier_correct buf offset sp :
  0 <= offset ->
  OpInfoBufferHasIdentifier buf offset sp = true <->
  identifier_at buf (offset + if sp then 8 else 4) = Some ORTM.
Proof. apply OpInfoBufferHasIdentifier_nonneg. Qed.

Lemma OpInfoBufferHasIdentifier_correct_witness :
  identifier_at sample_buffer (0 + 4) = Some ORTM /\
  OpInfoBufferHasIdentifier [16; 0; 0; 0; 79; 82] 0 false = false.
Proof.
  split.
  - apply (OpInfoBufferHasIdentifier_correct sample_buffer 0 false); [lia|].
    vm_compute. reflexivity.
  - destruct (OpInfoBufferHasIdentifier [16; 0; 0; 0; 79; 82] 0 false) eqn:E; [|reflexivity].
    apply (OpInfoBufferHasIdentifier_correct _ 0 false) in E; [|lia].
    vm_compute in E. discriminate.
Defined.

(** Counterexample to C5: [Table.__init__] runs [enforce_number(pos,
    UOffsetTFlags)], so a root offset that takes [offset + n] past
    [2^32 - 1] raises TypeError instead of giving a view. *)
Lemma GetRootAsOpInfo_overflow :
  run (encode_Get P_uoffset 1) [0; 255; 255; 255; 255] = Ok (2 ^ 32 - 1) /\
  run (GetRootAsOpInfo 1) [0; 255; 255; 255; 255] = Err TypeError.
Proof. split; vm_compute; reflexivity. Qed.

(** C5, amended: [GetRootAsOpInfo buf offset] reads the u32 [n] at
    [offset]; it returns the view at [offset + n] when that value is in
    [0, 2^32 - 1], and raises TypeError otherwise. *)
Theorem GetRootAsOpInfo_root buf offset n :
  run (encode_Get P_uoffset offset) buf = Ok n ->
  (0 <= n + offset <= 2 ^ 32 - 1 -> run (GetRootAsOpInfo offset) buf = Ok (mkTable (n + offset))) /\
  (~ (0 <= n + offset <= 2 ^ 32 - 1) -> run (GetRootAsOpInfo offset) buf = Err TypeError).
Proof.
  intros H. rewrite (GetRootAsOpInfo_spec _ _ _ H).
  split; intros Hr.
  - rewrite valid_uoffset by exact Hr. reflexivity.
  - destruct (valid_number P_uoffset (n + offset)) eqn:E; [|reflexivity].
    apply valid_number_spec in E. cbn [pmin pmax] in E. lia.
Qed.

Lemma GetRootAsOpInfo_root_witness :
  run (GetRootAsOpInfo 0) sample_buffer = Ok (mkTable 16) /\
  run (GetRootAsOpInfo 1) [0; 255; 255; 255; 255] = Err TypeError.
Proof.
  split.
  - apply (proj1 (GetRootAsOpInfo_root sample_buffer 0 16 ltac:(vm_compute; reflexivity)));
      lia.
  - apply (proj2 (GetRootAsOpInfo_root [0; 255; 255; 255; 255] 1 (2 ^ 32 - 1)
                    ltac:(vm_compute; reflexivity))).
    lia.
Defined.

(** C6 (element location). When the field is present ([Table_Offset 4 =
    o <> 0]), element [j] is found at the vector's first element, [o + Pos
    + a + 4] where [a] is the u32 at [o + Pos] (the header of 4 bytes
    skipped), plus [4 j]; the u32 [u] stored there is followed once more,
    and the [OpIdKernelTypeStrArgsEntry] view sits at that position plus
    [u]. *)
Theorem OpKernelTypeStrArgs_element (t : OpInfo) L j o a u :
  is_bytes L = true ->
  run (Table_Offset t 4) L = Ok o -> o <> 0 ->
  run (Table_Get t P_uoffset (o + Pos t)) L = Ok a ->
  run (encode_Get P_uoffset (o + Pos t + a + 4 + j * 4)) L = Ok u ->
  0 <= o + Pos t + a + 4 + j * 4 <= 2 ^ 32 - 1 ->
  0 <= o + Pos t + a + 4 + j * 4 + u <= 2 ^ 32 - 1 ->
  run (OpKernelTypeStrArgs t j) L = Ok (Some (mkTable (o + Pos t + a + 4 + j * 4 + u))).
Proof.
  intros HB HO Hn Ha Hu Hx Hy.
  pose proof (Table_Offset_bound _ _ _ _ HB HO) as Hob.
  unfold OpKernelTypeStrArgs. rewrite run_rbind by auto with pres. rewrite HO.
  apply Z.eqb_neq in Hn. rewrite Hn. cbn [negb].
  rewrite run_rbind by auto with pres.
  assert (HV : run (Table_Vector t o) L = Ok (o + Pos t + a + 4)).
  { unfold Table_Vector. rewrite run_enforce_ok by (apply valid_uoffset; lia).
    cbv zeta. rewrite run_rbind by auto with pres. rewrite Ha. reflexivity. }
  rewrite HV. cbv zeta. rewrite run_rbind by auto with pres.
  assert (HI : run (Table_Indirect t (o + Pos t + a + 4 + j * 4)) L
               = Ok (o + Pos t + a + 4 + j * 4 + u)).
  { unfold Table_Indirect. rewrite run_enforce_ok by (apply valid_uoffset; lia).
    rewrite run_rbind by auto with pres. rewrite Hu. reflexivity. }
  rewrite HI. rewrite run_rbind by auto with pres.
  unfold run at 1. rewrite Table_init_Ok by lia. reflexivity.
Qed.

Lemma OpKernelTypeStrArgs_element_witness :
  run (OpKernelTypeStrArgs (mkTable 16) 1) sample_buffer = Ok (Some (mkTable 44)).
Proof.
  apply (OpKernelTypeStrArgs_element (mkTable 16) sample_buffer 1 4 4 12);
    try (vm_compute; reflexivity); cbn [Pos]; lia.
Defined.

(** C7 (readers are pure). [GetRootAsOpInfo], [Init], [OpKernelTypeStrArgs],
    [OpKernelTypeStrArgsLength] and [OpKernelTypeStrArgsIsNone] leave the
    bound buffer unchanged, whatever they return. *)
Theorem OpInfo_readers_pure (L : list Z) offset pos (t : OpInfo) j :
  snd (GetRootAsOpInfo offset L) = L /\ snd (OpInfo_Init pos L) = L /\
  snd (OpKernelTypeStrArgs t j L) = L /\ snd (OpKernelTypeStrArgsLength t L) = L /\
  snd (OpKernelTypeStrArgsIsNone t L) = L.
Proof.
  repeat split.
  - apply GetRootAsOpInfo_pres.
  - apply OpInfo_Init_pres.
  - apply OpKernelTypeStrArgs_pres.
  - apply OpKernelTypeStrArgsLength_pres.
  - apply OpKernelTypeStrArgsIsNone_pres.
Qed.

(** C8 (None iff absent). [OpKernelTypeStrArgs t j] returns [None] exactly
    when the field's vtable offset is 0; the answer does not depend on [j],
    so with the field present no [j], in range or not, gives [None]. *)
Theorem OpKernelTypeStrArgs_None_iff (t : OpInfo) L j :
  run (OpKernelTypeStrArgs t j) L = Ok None <-> run (Table_Offset t 4) L = Ok 0.
Proof.
  unfold OpKernelTypeStrArgs. rewrite run_rbind by auto with pres.
  destruct (run (Table_Offset t 4) L) as [o|e]; [|split; discriminate].
  destruct (o =? 0) eqn:E; cbn [negb].
  - apply Z.eqb_eq in E. subst. split; reflexivity.
  - apply Z.eqb_neq in E. split; [|intros H; injection H; congruence].
    intros H. exfalso.
    rewrite run_rbind in H by auto with pres.
    destruct (run (Table_Vector t o) L); [|discriminate]. cbv zeta in H.
    rewrite run_rbind in H by auto with pres.
    destruct (run (Table_Indirect t _) L); [|discriminate].
    rewrite run_rbind in H by auto with pres.
    destruct (run (Table_init _) L); discriminate.
Qed.

(** C9 (consistency). All three accessors read slot 0 (byte 4):
    [IsNone] true gives length 0 and [None] for every [j]; [IsNone] false
    gives a nonzero field offset [o] and the length is then the u32 stored
    at the vector's position [o + Pos + a], [a] the u32 at [o + Pos]. *)
Theorem OpKernelTypeStrArgs_consistent (t : OpInfo) L :
  is_bytes L = true ->
  (run (OpKernelTypeStrArgsIsNone t) L = Ok true ->
     run (OpKernelTypeStrArgsLength t) L = Ok 0 /\
     forall j, run (OpKernelTypeStrArgs t j) L = Ok None) /\
  (run (OpKernelTypeStrArgsIsNone t) L = Ok false ->
     exists o, run (Table_Offset t 4) L = Ok o /\ o <> 0 /\
       forall a, run (encode_Get P_uoffset (o + Pos t)) L = Ok a ->
         run (OpKernelTypeStrArgsLength t) L = run (encode_Get P_uoffset (o + Pos t + a)) L).
Proof.
  intros HB. unfold OpKernelTypeStrArgsIsNone. rewrite run_rbind by auto with pres.
  destruct (run (Table_Offset t 4) L) as [o|e] eqn:HO; [|split; discriminate].
  split.
  - intros H. injection H as H. apply Z.eqb_eq in H. subst o.
    destruct (absent_accessors t L) as (A1 & _ & A3); [apply run_pres; auto with pres|].
    auto.
  - intros H. injection H as H. apply Z.eqb_neq in H.
    pose proof (Table_Offset_bound _ _ _ _ HB HO) as Hob.
    exists o. split; [reflexivity|]. split; [exact H|]. intros a Ha.
    unfold OpKernelTypeStrArgsLength. rewrite run_rbind by auto with pres. rewrite HO.
    apply Z.eqb_neq in H. rewrite H. cbn [negb].
    unfold Table_VectorLen. rewrite run_enforce_ok by (apply valid_uoffset; lia).
    cbv zeta. rewrite run_rbind by auto with pres.
    rewrite Ha. reflexivity.
Qed.

Lemma OpKernelTypeStrArgs_consistent_witness :
  run (OpKernelTypeStrArgsLength (mkTable 16)) sample_buffer = Ok 3.
Proof.
  destruct (proj2 (OpKernelTypeStrArgs_consistent (mkTable 16) sample_buffer
                     ltac:(vm_compute; reflexivity)) ltac:(vm_compute; reflexivity))
    as (o & HO & Hn & Hl).
  assert (Ho : o = 4) by (vm_compute in HO; injection HO; auto). subst o.
  rewrite (Hl 4 ltac:(vm_compute; reflexivity)). vm_compute. reflexivity.
Defined.

(** Counterexample to C10: the root offset at [offset = 2] is readable
    ([2^32 - 1]), yet [GetRootAsOpInfo] raises TypeError: the view's
    position [offset + n] fails [Table.__init__]'s [enforce_number]. *)
Lemma GetRootAsOpInfo_readable_but_raises :
  run (encode_Get P_uoffset 2) [0; 0; 255; 255; 255; 255] = Ok (2 ^ 32 - 1) /\
  run (GetRootAsOpInfo 2) [0; 0; 255; 255; 255; 255] = Err TypeError.
Proof. split; vm_compute; reflexivity. Qed.

(** C10, amended: [GetRootAsOpInfo] never looks at the file identifier.
    Whenever the root offset [n] at [offset] is readable, the result is
    fixed by [offset + n] alone: the view at [offset + n] when that value
    lies in [0, 2^32 - 1], and TypeError otherwise, though the root offset
    was readable.  The statement has no condition on the identifier bytes,
    so both hold whether [OpInfoBufferHasIdentifier buf offset sp] is true
    or false. *)
Theorem GetRootAsOpInfo_ignores_identifier buf offset n :
  run (encode_Get P_uoffset offset) buf = Ok n ->
  (0 <= n + offset <= 2 ^ 32 - 1 ->
   run (GetRootAsOpInfo offset) buf = Ok (mkTable (n + offset))) /\
  (~ (0 <= n + offset <= 2 ^ 32 - 1) ->
   run (GetRootAsOpInfo offset) buf = Err TypeError).
Proof.
  intros H. rewrite (GetRootAsOpInfo_spec _ _ _ H). split; intros Hr.
  - rewrite valid_uoffset by exact Hr. reflexivity.
  - destruct (valid_number P_uoffset (n + offset)) eqn:E; [|reflexivity].
    apply valid_number_spec in E. cbn [pmin pmax] in E. lia.
Qed.

Lemma GetRootAsOpInfo_ignores_identifier_witness :
  OpInfoBufferHasIdentifier sample_buffer 0 false = true /\
  run (GetRootAsOpInfo 0) sample_buffer = Ok (mkTable 16) /\
  OpInfoBufferHasIdentifier [8; 0; 0; 0; 0; 0; 0; 0] 0 false = false /\
  run (GetRootAsOpInfo 0) [8; 0; 0; 0; 0; 0; 0; 0] = Ok (mkTable 8) /\
  run (GetRootAsOpInfo 2) [0; 0; 255; 255; 255; 255] = Err TypeError.
Proof.
  split; [vm_compute; reflexivity|].
  split; [exact (proj1 (GetRootAsOpInfo_ignores_identifier sample_buffer 0 16
                          ltac:(vm_compute; reflexivity)) ltac:(lia))|].
  split; [vm_compute; reflexivity|].
  split; [exact (proj1 (GetRootAsOpInfo_ignores_identifier [8; 0; 0; 0; 0; 0; 0; 0] 0 8
                          ltac:(vm_compute; reflexivity)) ltac:(lia))|].
  exact (proj2 (GetRootAsOpInfo_ignores_identifier [0; 0; 255; 255; 255; 255] 2 (2 ^ 32 - 1)
                  ltac:(vm_compute; reflexivity)) ltac:(lia)).
Defined.

(** * Further properties of the OpInfo writers and readers *)

(** ** Helpers *)

Lemma Prep_nested size add st u st' :
  Prep size add st = Ok (u, st') -> b_nested st' = b_nested st.
Proof. intros H. apply Prep_Ok in H. destruct H as (_ & _ & _ & _ & _ & H). exact H. Qed.

Lemma Place_nested k x st u st' :
  Place k x st = Ok (u, st') -> b_nested st' = b_nested st.
Proof. intros H. apply Place_Ok in H. destruct H as (_ & _ & _ & _ & _ & H). exact H. Qed.

Lemma PrependVOffsetT_nested x st u st' :
  PrependVOffsetT x st = Ok (u, st') -> b_nested st' = b_nested st.
Proof.
  unfold PrependVOffsetT, Prepend. intros H. binv H.
  apply Prep_nested in H0. apply Place_nested in H. congruence.
Qed.

Lemma PrependUOffsetTRelative_nested off st u st' :
  PrependUOffsetTRelative off st = Ok (u, st') -> b_nested st' = b_nested st.
Proof.
  unfold PrependUOffsetTRelative. intros H. binv H. apply Prep_nested in H0. bnorm.
  destruct (negb _); [discriminate|]. apply Place_nested in H. congruence.
Qed.

Lemma PrependSOffsetTRelative_nested off st u st' :
  PrependSOffsetTRelative off st = Ok (u, st') -> b_nested st' = b_nested st.
Proof.
  unfold PrependSOffsetTRelative. intros H. binv H. apply Prep_nested in H0. bnorm.
  destruct (negb _); [discriminate|]. apply Place_nested in H. congruence.
Qed.

Lemma write_vt_entries_nested oo trim l st t st' :
  write_vt_entries oo trim l st = Ok (t, st') -> b_nested st' = b_nested st.
Proof.
  revert trim st t st'. induction l as [|e r IH]; intros trim st t st' H;
    cbn [write_vt_entries] in H.
  - bnorm. reflexivity.
  - destruct (e =? 0); [destruct trim|].
    + binv H. bnorm. eapply IH; eauto.
    + binv H. apply PrependVOffsetT_nested in H0. apply IH in H. congruence.
    + binv H. apply PrependVOffsetT_nested in H0. apply IH in H. congruence.
Qed.

Lemma write_soffset_at_nested i v st u st' :
  write_soffset_at i v st = Ok (u, st') -> b_nested st' = b_nested st.
Proof.
  unfold write_soffset_at. intros H. destruct (_ && _ && _); [|discriminate].
  apply Ok_pair_inj in H. destruct H as [_ ->]. reflexivity.
Qed.

Lemma WriteVtable_nested st oo st' :
  WriteVtable st = Ok (oo, st') -> b_nested st' = b_nested st.
Proof.
  unfold WriteVtable. intros H. binv H. apply PrependSOffsetTRelative_nested in H0. bnorm.
  destruct (vt_lookup _ _).
  - binv H. bnorm.
    match goal with H1 : write_soffset_at _ _ _ = Ok _ |- _ =>
      apply write_soffset_at_nested in H1 end.
    cbn [clear_vtable b_nested]. congruence.
  - binv H. bnorm.
    repeat match goal with
    | H1 : PrependVOffsetT _ _ = Ok _ |- _ => apply PrependVOffsetT_nested in H1
    | H1 : write_soffset_at _ _ _ = Ok _ |- _ => apply write_soffset_at_nested in H1
    | H1 : write_vt_entries _ _ _ _ = Ok _ |- _ => apply write_vt_entries_nested in H1
    end.
    cbn [b_nested]. congruence.
Qed.

Lemma OpInfoEnd_nested st oo st' :
  OpInfoEnd st = Ok (oo, st') -> b_nested st = true /\ b_nested st' = false.
Proof.
  unfold OpInfoEnd, EndObject. intros H. binv H. bnorm.
  apply WriteVtable_nested in H. split; [exact Hnest|exact H].
Qed.

(** The dedup dictionary stays consistent when the bytes grow and at most
    one vtable, stored at its offset, is recorded. *)
Lemma vtables_stored_step st st' key vo :
  vtables_stored st = true -> (exists X, b_bytes st' = X ++ b_bytes st) ->
  get_at P_voffset (b_bytes st') vo = Ok (2 * (Z.of_nat (length key) + 2)) ->
  entries_stored (b_bytes st') (vo - 4) (rev key) = true ->
  (b_vtables st' = b_vtables st \/ b_vtables st' = (key, vo) :: b_vtables st) ->
  vtables_stored st' = true.
Proof.
  intros Hst [X HX] H1 H2 Hv.
  assert (Hold : vtables_stored (mkBuilder (b_bytes st') None 0 0 (b_vtables st) false false) = true).
  { apply (vtables_stored_app st _ X); [exact HX|reflexivity|exact Hst]. }
  destruct Hv as [Hv|Hv].
  - unfold vtables_stored in *. rewrite Hv. exact Hold.
  - unfold vtables_stored in *. rewrite Hv. cbn [forallb].
    apply andb_true_iff; split; [|exact Hold].
    apply andb_true_iff; split; [apply res_is_Ok; exact H1|exact H2].
Qed.

Lemma OpInfoEnd_stored e st oo st' :
  OpInfoEnd st = Ok (oo, st') -> b_vtable st = Some [e] ->
  Offset st mod 4 = 0 -> vtables_stored st = true -> vtables_stored st' = true.
Proof.
  intros H Hvt Ha Hst.
  destruct (OpInfoEnd_Ok _ _ _ _ H Hvt Ha Hst) as (_ & _ & _ & HX & so & _ & H1 & H2 & H3).
  apply (vtables_stored_step st st' (vt_key oo true [e]) (oo + so)); auto.
  destruct H3 as [[_ ->]|[_ ->]]; auto.
Qed.

Lemma Finish_state root fid st out st' :
  Finish root fid st = Ok (out, st') ->
  b_bytes st' = out /\ b_vtables st' = b_vtables st.
Proof.
  unfold Finish. intros H. binv H.
  destruct (valid_number P_uoffset root); [|discriminate]. bnorm.
  apply Prep_Ok in H2. cbv zeta in H2. destruct H2 as [_ (_ & _ & _ & Hv0 & _)].
  assert (Hv1 : b_vtables st3 = b_vtables st).
  { destruct fid as [fid|].
    - binv H3.
      match goal with Hp : Prep _ _ _ = Ok _ , Hq : (if _ then _ else _) _ = Ok _ |- _ =>
        apply Prep_Ok in Hp; cbv zeta in Hp; destruct Hp as [_ (_ & _ & _ & Hv1 & _)];
        destruct (length fid =? 4)%nat; [|discriminate];
        destruct (place_bytes_rev_Ok _ _ _ _ Hq) as [X (_ & _ & _ & Hv2 & _)] end.
      congruence.
    - bnorm. exact Hv0. }
  destruct (PrependUOffsetTRelative_Ok _ _ _ _ H4)
    as (Y & s2 & (_ & _ & _ & Hy & _) & _ & _ & (_ & _ & _ & Hz & _) & _).
  bnorm. split; [reflexivity|congruence].
Qed.

Lemma place_bytes_rev_exact bs st u st' :
  place_bytes_rev bs st = Ok (u, st') -> extends st st' bs.
Proof.
  revert st u st'. induction bs as [|b r IH]; intros st u st' H; cbn [place_bytes_rev] in H.
  - bnorm. apply extends_refl.
  - binv H. apply IH in H0. apply Place_Ok in H. destruct H as [Hv Hx].
    apply valid_number_spec in Hv. cbn [pmin pmax] in Hv.
    cbn [bytewidth le_encode] in Hx.
    replace (Z.land b 255) with b in Hx
      by (symmetry; change 255 with (Z.ones 8); rewrite Z.land_ones by lia;
          apply Z.mod_small; lia).
    exact (extends_trans _ _ _ _ _ H0 Hx).
Qed.

Lemma Prep4_over add st :
  MAX_BUFFER_SIZE < Offset st + 4 + add -> Prep 4 add st = Err BuilderSizeError.
Proof.
  intros H. unfold Prep. change (4 - 1) with (2 ^ 2 - 1). rewrite align_pow2 by lia.
  pose proof (Z.mod_pos_bound (- (Offset st + add)) (2 ^ 2) ltac:(lia)).
  destruct (MAX_BUFFER_SIZE <? _) eqn:E; [reflexivity|]. apply Z.ltb_ge in E. lia.
Qed.

Lemma run_pres_step {A B} (m : RM A) (f : A -> RM B) L a :
  preserves m -> run m L = Ok a -> run (rbind m f) L = run (f a) L.
Proof. intros Hp H. unfold run at 1. rewrite (rbind_Ok _ _ _ _ (run_pres _ _ _ Hp H)). reflexivity. Qed.

(** ** Properties *)

(** X1 (no nesting). Once [OpInfoStart] or
    [OpInfoStartOpKernelTypeStrArgsVector] has succeeded, the builder is
    nested and both of them raise [IsNestedError]: an [OpInfo] cannot be
    started while another object or the vector is being written, and the
    vector cannot be started inside the [OpInfo]. *)
Theorem OpInfo_start_while_nested st st' n m :
  (exists u, OpInfoStart st = Ok (u, st')) \/
  (exists S, OpInfoStartOpKernelTypeStrArgsVector n st = Ok (S, st')) ->
  OpInfoStart st' = Err IsNestedError /\
  OpInfoStartOpKernelTypeStrArgsVector m st' = Err IsNestedError.
Proof.
  intros Hs.
  assert (Hn : b_nested st' = true).
  { destruct Hs as [[u H]|[S H]].
    - apply OpInfoStart_Ok in H. tauto.
    - apply StartVector_Ok in H. tauto. }
  unfold OpInfoStart, StartObject, OpInfoStartOpKernelTypeStrArgsVector, StartVector,
    assertNotNested, bbind, bget. rewrite Hn. split; reflexivity.
Qed.

Lemma OpInfo_start_while_nested_witness :
  OpInfoStart new_Builder = Ok (tt, mkBuilder [] (Some [0]) 0 1 [] true false) /\
  OpInfoStart (mkBuilder [] (Some [0]) 0 1 [] true false) = Err IsNestedError /\
  OpInfoStartOpKernelTypeStrArgsVector 2 (mkBuilder [] (Some [0]) 0 1 [] true false)
    = Err IsNestedError.
Proof.
  split; [reflexivity|].
  apply (OpInfo_start_while_nested new_Builder _ 0 2). left. exists tt. reflexivity.
Defined.

(** X2 (no double end). After a successful [OpInfoEnd], or a successful
    [EndVector] closing the vector, the builder is no longer nested:
    [OpInfoEnd] and [EndVector] both raise [IsNotNestedError] there. *)
Theorem OpInfo_end_not_nested st st' n m :
  (exists oo, OpInfoEnd st = Ok (oo, st')) \/ (exists V, EndVector n st = Ok (V, st')) ->
  OpInfoEnd st' = Err IsNotNestedError /\ EndVector m st' = Err IsNotNestedError.
Proof.
  intros Hs.
  assert (Hn : b_nested st' = false).
  { destruct Hs as [[oo H]|[V H]].
    - apply OpInfoEnd_nested in H. tauto.
    - apply EndVector_Ok in H. tauto. }
  unfold OpInfoEnd, EndObject, EndVector, assertNested, bbind, bget. rewrite Hn.
  split; reflexivity.
Qed.

Lemma OpInfo_end_not_nested_witness :
  OpInfoEnd (mkBuilder [] (Some [0]) 0 1 [] true false)
    = Ok (4, mkBuilder [4; 0; 4; 0; 4; 0; 0; 0] None 0 4 [([], 8)] false false) /\
  OpInfoEnd (mkBuilder [4; 0; 4; 0; 4; 0; 0; 0] None 0 4 [([], 8)] false false)
    = Err IsNotNestedError /\
  EndVector 0 (mkBuilder [4; 0; 4; 0; 4; 0; 0; 0] None 0 4 [([], 8)] false false)
    = Err IsNotNestedError.
Proof.
  split; [vm_compute; reflexivity|].
  apply (OpInfo_end_not_nested (mkBuilder [] (Some [0]) 0 1 [] true false) _ 0 0).
  left. exists 4. vm_compute. reflexivity.
Defined.

(** X3 (field only inside the object). Outside an object (the builder is
    not nested), [OpInfoAddOpKernelTypeStrArgs] with a value other than the
    default 0 never succeeds: either the [PrependUOffsetTRelative] it starts
    with fails, and the call raises that error, or that prepend succeeds and
    the [Slot] call after it raises [IsNotNestedError]. *)
Theorem OpInfoAdd_outside_object V st :
  b_nested st = false -> V <> 0 ->
  (exists u s1, PrependUOffsetTRelative V st = Ok (u, s1) /\
     OpInfoAddOpKernelTypeStrArgs V st = Err IsNotNestedError) \/
  (exists e, PrependUOffsetTRelative V st = Err e /\
     OpInfoAddOpKernelTypeStrArgs V st = Err e).
Proof.
  intros Hn HV. unfold OpInfoAddOpKernelTypeStrArgs. rewrite PrependUOffsetTRelativeSlot_eq.
  apply Z.eqb_neq in HV. rewrite HV. cbn [negb orb]. cbv delta [bbind] beta.
  destruct (PrependUOffsetTRelative V st) as [[u s1]|e] eqn:E.
  - left. exists u, s1. split; [reflexivity|].
    apply PrependUOffsetTRelative_nested in E. rewrite Hn in E.
    unfold Slot, assertNested, bbind, bget. rewrite E. reflexivity.
  - right. exists e. split; reflexivity.
Qed.

Lemma OpInfoAdd_outside_object_witness :
  OpInfoAddOpKernelTypeStrArgs 4 (mkBuilder [0; 0; 0; 0] None 0 1 [] false false)
    = Err IsNotNestedError /\
  OpInfoAddOpKernelTypeStrArgs 12 (mkBuilder [0; 0; 0; 0] None 0 1 [] false false)
    = Err OffsetArithmeticError.
Proof.
  split.
  - destruct (OpInfoAdd_outside_object 4 (mkBuilder [0; 0; 0; 0] None 0 1 [] false false)
                eq_refl ltac:(lia)) as [(u & s1 & _ & H) | (e & H1 & _)];
      [exact H | vm_compute in H1; discriminate].
  - destruct (OpInfoAdd_outside_object 12 (mkBuilder [0; 0; 0; 0] None 0 1 [] false false)
                eq_refl ltac:(lia)) as [(u & s1 & H1 & _) | (e & H1 & H)];
      [vm_compute in H1; discriminate | vm_compute in H1; injection H1 as <-; exact H].
Defined.

(** X4 (no forward reference). [OpInfoAddOpKernelTypeStrArgs V] raises
    [OffsetArithmeticError] when [V] lies beyond what has been written
    (more than the at most 3 bytes of alignment padding past [Offset()]),
    provided the padding itself fits in the buffer limit. *)
Theorem OpInfoAdd_forward_reference V st :
  V <> 0 -> Offset st + 3 < V -> Offset st + 7 <= MAX_BUFFER_SIZE ->
  OpInfoAddOpKernelTypeStrArgs V st = Err OffsetArithmeticError.
Proof.
  intros HV Hlt Hmax. unfold OpInfoAddOpKernelTypeStrArgs.
  rewrite PrependUOffsetTRelativeSlot_eq.
  apply Z.eqb_neq in HV. rewrite HV. cbn [negb orb].
  unfold PrependUOffsetTRelative. cbv delta [bbind] beta.
  destruct (Prep 4 0 st) as [[[] s1]|e] eqn:E.
  - assert (E' : Prep (2 ^ 2) 0 st = Ok (tt, s1)) by exact E.
    destruct (Prep_pow2 2 0 _ _ _ ltac:(lia) E') as (X & Hx & Hl & _ & _).
    pose proof (extends_Offset _ _ _ Hx) as Ho. rewrite Hl, Z.add_0_r in Ho.
    pose proof (Z.mod_pos_bound (- Offset st) (2 ^ 2) ltac:(lia)).
    cbv delta [bget] beta iota.
    replace (negb (V <=? Offset s1)) with true
      by (symmetry; apply negb_true_iff, Z.leb_gt; change (2 ^ 2) with 4 in *; lia).
    reflexivity.
  - exfalso. unfold Prep in E. change (4 - 1) with (2 ^ 2 - 1) in E.
    rewrite align_pow2 in E by lia.
    pose proof (Z.mod_pos_bound (- (Offset st + 0)) (2 ^ 2) ltac:(lia)).
    destruct (MAX_BUFFER_SIZE <? _) eqn:E2; [|discriminate].
    apply Z.ltb_lt in E2. change (2 ^ 2) with 4 in *. lia.
Qed.

Lemma OpInfoAdd_forward_reference_witness :
  OpInfoAddOpKernelTypeStrArgs 8 new_Builder = Err OffsetArithmeticError.
Proof.
  apply OpInfoAdd_forward_reference; unfold Offset, MAX_BUFFER_SIZE; cbn; lia.
Defined.

(** X5 (root round trip). Whatever table offset [root] a buffer is
    finished with, [GetRootAsOpInfo(buf, 0)] on the output returns the view
    at that table, [len(buf) - root]. *)
Theorem Finish_GetRootAsOpInfo root fid st out st' :
  Finish root fid st = Ok (out, st') ->
  run (GetRootAsOpInfo 0) out = Ok (mkTable (blen out - root)).
Proof.
  intros H. destruct (Finish_Ok _ _ _ _ _ H) as (P & Hout & _ & _ & Hv).
  unfold run. rewrite (GetRootAsOpInfo_layout out root); [reflexivity| |].
  - rewrite Hout at 1. apply (get_at_place_at P_uoffset); [|exact Hv].
    rewrite Hout at 1. rewrite !blen_app, !blen_encode. simpl Z.of_nat. lia.
  - apply valid_number_spec in Hv. cbn [pmin pmax] in Hv. lia.
Qed.

Lemma Finish_GetRootAsOpInfo_witness :
  Finish 4 None (mkBuilder [0; 0; 0; 0] None 0 1 [] false false)
    = Ok ([4; 0; 0; 0; 0; 0; 0; 0], mkBuilder [4; 0; 0; 0; 0; 0; 0; 0] None 0 4 [] false false) /\
  run (GetRootAsOpInfo 0) [4; 0; 0; 0; 0; 0; 0; 0] = Ok (mkTable 4).
Proof.
  split; [vm_compute; reflexivity|].
  exact (Finish_GetRootAsOpInfo 4 None (mkBuilder [0; 0; 0; 0] None 0 1 [] false false) _ _
           ltac:(vm_compute; reflexivity)).
Defined.

(** X6 (identifier round trip). When [Finish] with a file identifier
    succeeds, the identifier had 4 bytes (another length makes
    [struct.unpack('>BBBB', ...)] raise) and it is what
    [GetBufferIdentifier(buf, 0)] reads back, so [BufferHasIdentifier]
    (and [OpInfoBufferHasIdentifier] for [ORTM]) returns [True]. *)
Theorem Finish_identifier root fid st out st' :
  Finish root (Some fid) st = Ok (out, st') ->
  length fid = 4%nat /\ GetBufferIdentifier out 0 false = fid /\
  BufferHasIdentifier out 0 fid false = true.
Proof.
  unfold Finish. intros H. binv H.
  destruct (valid_number P_uoffset root); [|discriminate]. bnorm.
  binv H3.
  change (Prep 4 FILE_IDENTIFIER_LENGTH) with (Prep (2 ^ 2) 4) in H.
  destruct (Prep_pow2 2 _ _ _ _ ltac:(lia) H) as (X1 & Hx1 & _ & Ha & _).
  destruct (length fid =? 4)%nat eqn:El; [|discriminate].
  apply Nat.eqb_eq in El.
  apply place_bytes_rev_exact in H3.
  assert (Hal : Offset st3 mod 4 = 0).
  { rewrite (extends_Offset _ _ _ H3). unfold blen at 1. rewrite El.
    change (2 ^ 2) with 4 in Ha. change (Z.of_nat 4) with 4. rewrite Z.add_comm. exact Ha. }
  destruct (PrependUOffsetTRelative_Ok _ _ _ _ H4)
    as (Y & s2 & Hy & _ & _ & Hz & _ & HY).
  specialize (HY Hal). subst Y.
  destruct Hz as (Hz & _). destruct Hy as (Hy & _). destruct H3 as (Hf & _).
  set (v := Offset s2 - root + 4) in *.
  assert (Hout : b_bytes st4 = le_encode 4 v ++ fid ++ b_bytes st0).
  { rewrite Hz, Hy, Hf. reflexivity. }
  assert (Hg : GetBufferIdentifier (b_bytes st4) 0 false = fid).
  { assert (Hfl : blen fid = 4) by (unfold blen; rewrite El; reflexivity).
    unfold GetBufferIdentifier, py_slice, py_norm, FILE_IDENTIFIER_LENGTH. rewrite Hout.
    rewrite !blen_app, blen_encode, Hfl. pose proof (blen_nonneg (b_bytes st0)).
    change (Z.of_nat 4) with 4.
    replace (0 + 4 <? 0) with false by reflexivity.
    replace (0 + 4 + 4 <? 0) with false by reflexivity.
    cbv beta iota.
    rewrite !Z.min_l by lia.
    change (Z.to_nat (0 + 4)) with (length (le_encode 4 v)).
    rewrite skipn_length_app. change (Z.to_nat (0 + 4 + 4 - (0 + 4))) with 4%nat.
    rewrite <- El. apply firstn_length_app. }
  split; [exact El|]. split; [exact Hg|].
  unfold BufferHasIdentifier. rewrite Hg. apply bytes_eqb_refl.
Qed.

Lemma Finish_identifier_witness :
  Finish 4 (Some ORTM) (mkBuilder [0; 0; 0; 0] None 0 1 [] false false)
    = Ok ([8; 0; 0; 0; 79; 82; 84; 77; 0; 0; 0; 0],
          mkBuilder [8; 0; 0; 0; 79; 82; 84; 77; 0; 0; 0; 0] None 0 4 [] false false) /\
  OpInfoBufferHasIdentifier [8; 0; 0; 0; 79; 82; 84; 77; 0; 0; 0; 0] 0 false = true.
Proof.
  split; [vm_compute; reflexivity|].
  exact (proj2 (proj2 (Finish_identifier 4 ORTM (mkBuilder [0; 0; 0; 0] None 0 1 [] false false) _ _
                         ltac:(vm_compute; reflexivity)))).
Defined.

(** X7 (short buffer). [GetRootAsOpInfo(buf, offset)] with [offset >= 0]
    on a buffer that does not hold 4 bytes at [offset] raises
    [struct.error]. *)
Theorem GetRootAsOpInfo_short buf offset :
  0 <= offset -> blen buf < offset + 4 ->
  run (GetRootAsOpInfo offset) buf = Err StructError.
Proof.
  intros H0 H1. unfold run, GetRootAsOpInfo, rbind, encode_Get, unpack_from.
  replace (offset <? 0) with false by (symmetry; apply Z.ltb_ge; lia).
  replace (offset <? 0) with false by (symmetry; apply Z.ltb_ge; lia).
  replace (blen buf - offset <? Z.of_nat (bytewidth P_uoffset)) with true
    by (symmetry; apply Z.ltb_lt; cbn [bytewidth]; simpl Z.of_nat; lia).
  reflexivity.
Qed.

Lemma GetRootAsOpInfo_short_witness :
  run (GetRootAsOpInfo 2) [8; 0; 0; 0; 0] = Err StructError.
Proof. apply GetRootAsOpInfo_short; unfold blen; simpl; lia. Defined.

(** X8 (negative index). [OpKernelTypeStrArgs(j)] does not check [j]: when
    the field is present and [j] is so negative that the element position
    [Vector(o) + 4 j] is below 0, [Table.Indirect] raises [TypeError]. *)
Theorem OpKernelTypeStrArgs_before_start (t : OpInfo) L j o x :
  run (Table_Offset t 4) L = Ok o -> o <> 0 ->
  run (Table_Vector t o) L = Ok x -> x + j * 4 < 0 ->
  run (OpKernelTypeStrArgs t j) L = Err TypeError.
Proof.
  intros Ho Hnz Hx Hneg. unfold OpKernelTypeStrArgs.
  rewrite (run_pres_step _ _ _ _ (Table_Offset_pres t 4) Ho).
  replace (negb (o =? 0)) with true by (symmetry; apply negb_true_iff, Z.eqb_neq; exact Hnz).
  rewrite (run_pres_step _ _ _ _ (Table_Vector_pres t o) Hx).
  unfold run, rbind at 1, Table_Indirect, rbind at 1, enforce_number.
  replace (valid_number P_uoffset (x + j * 4)) with false
    by (symmetry; unfold valid_number; cbn [pmin]; apply andb_false_iff; left;
        apply Z.leb_gt; exact Hneg).
  reflexivity.
Qed.

Lemma OpKernelTypeStrArgs_before_start_witness :
  run (OpKernelTypeStrArgs (mkTable 16) (-8)) sample_buffer = Err TypeError.
Proof.
  apply (OpKernelTypeStrArgs_before_start (mkTable 16) sample_buffer (-8) 4 28);
    [vm_compute; reflexivity | lia | vm_compute; reflexivity | lia].
Defined.

(** X9 (index past the end). When the field is present and the element
    position [Vector(o) + 4 j] is a valid offset but fewer than 4 bytes of
    the buffer follow it, [OpKernelTypeStrArgs(j)] raises [struct.error]. *)
Theorem OpKernelTypeStrArgs_past_end (t : OpInfo) L j o x :
  run (Table_Offset t 4) L = Ok o -> o <> 0 ->
  run (Table_Vector t o) L = Ok x -> 0 <= x + j * 4 <= 2 ^ 32 - 1 ->
  blen L < x + j * 4 + 4 ->
  run (OpKernelTypeStrArgs t j) L = Err StructError.
Proof.
  intros Ho Hnz Hx Hr Hlen. unfold OpKernelTypeStrArgs.
  rewrite (run_pres_step _ _ _ _ (Table_Offset_pres t 4) Ho).
  replace (negb (o =? 0)) with true by (symmetry; apply negb_true_iff, Z.eqb_neq; exact Hnz).
  rewrite (run_pres_step _ _ _ _ (Table_Vector_pres t o) Hx).
  unfold run, rbind at 1, Table_Indirect.
  rewrite (rbind_Ok _ _ _ tt) by (apply enforce_number_Ok, valid_uoffset; exact Hr).
  unfold rbind at 1, encode_Get, unpack_from.
  replace (x + j * 4 <? 0) with false by (symmetry; apply Z.ltb_ge; lia).
  replace (x + j * 4 <? 0) with false by (symmetry; apply Z.ltb_ge; lia).
  replace (blen L - (x + j * 4) <? Z.of_nat (bytewidth P_uoffset)) with true
    by (symmetry; apply Z.ltb_lt; cbn [bytewidth]; simpl Z.of_nat; lia).
  reflexivity.
Qed.

Lemma OpKernelTypeStrArgs_past_end_witness :
  run (OpKernelTypeStrArgs (mkTable 16) 7) sample_buffer = Err StructError.
Proof.
  apply (OpKernelTypeStrArgs_past_end (mkTable 16) sample_buffer 7 4 28);
    [vm_compute; reflexivity | lia | vm_compute; reflexivity | lia | vm_compute; reflexivity].
Defined.

(** X10 (too large a vector). [OpInfoStartOpKernelTypeStrArgsVector(n)]
    outside an object raises [BuilderSizeError] at once when the [4 n]
    bytes of the elements and the 4 of the length would take the buffer
    past [MAX_BUFFER_SIZE]. *)
Theorem StartVector_too_large n st :
  b_nested st = false -> MAX_BUFFER_SIZE < Offset st + 4 * n + 4 ->
  OpInfoStartOpKernelTypeStrArgsVector n st = Err BuilderSizeError.
Proof.
  intros Hn Hsz. unfold OpInfoStartOpKernelTypeStrArgsVector, StartVector.
  cbv delta [bbind assertNotNested bget bput bret bfail] beta iota. rewrite Hn.
  rewrite Prep4_over; [reflexivity|]. unfold Offset at 1. cbn [b_bytes]. fold (Offset st). lia.
Qed.

Lemma StartVector_too_large_witness :
  OpInfoStartOpKernelTypeStrArgsVector (2 ^ 29) new_Builder = Err BuilderSizeError.
Proof. apply StartVector_too_large; [reflexivity|unfold Offset, MAX_BUFFER_SIZE; cbn; lia]. Defined.

Lemma empty_table_Ok st t st' :
  vtables_stored st = true -> (OpInfoStart ;;;; OpInfoEnd) st = Ok (t, st') ->
  vtables_stored st' = true /\ (exists X, b_bytes st' = X ++ b_bytes st) /\
  exists so, get_at P_soffset (b_bytes st') t = Ok so /\
    vt_lookup [] (b_vtables st') = Some (t + so) /\
    (vt_lookup [] (b_vtables st) <> None ->
     b_vtables st' = b_vtables st /\ vt_lookup [] (b_vtables st) = Some (t + so)).
Proof.
  intros Hst H. binv H.
  apply OpInfoStart_Ok in H0. destruct H0 as (_ & Hb1 & Hvt1 & _ & Hvs1 & _).
  unfold OpInfoEnd, EndObject in H. binv H. bnorm.
  destruct (WriteVtable_pad _ _ H) as (sp & X & Hx & Ha & Hw).
  destruct Hx as (Hx1 & Hx2 & _ & Hx4 & _). cbn [b_bytes b_vtable b_vtables] in *.
  assert (Hstp : vtables_stored sp = true).
  { apply (vtables_stored_app st _ X); [rewrite Hx1, Hb1; reflexivity | congruence | exact Hst]. }
  destruct (WriteVtable_single 0 sp t st' ltac:(congruence) Ha Hstp Hw)
    as (_ & [Y HY] & _ & so & Hs1 & Hs2 & Hs3 & Hvt).
  cbn [vt_key Z.eqb] in Hs2, Hs3, Hvt.
  split.
  { apply (vtables_stored_step sp st' [] (t + so)); auto; [eexists; exact HY|].
    destruct Hvt as [[_ ->]|[_ ->]]; auto. }
  split; [exists (Y ++ X); rewrite HY, Hx1, Hb1, app_assoc; reflexivity|].
  exists so. split; [exact Hs1|].
  rewrite Hx4, Hvs1 in Hvt. destruct Hvt as [[Hl Hv]|[Hl Hv]]; rewrite Hv.
  - split; [exact Hl|]. intros _. auto.
  - split; [reflexivity|]. intros Hn. contradiction.
Qed.

Lemma write_soffset_at_size i v st u st' :
  write_soffset_at i v st = Ok (u, st') ->
  Offset st' = Offset st /\ b_objectEnd st' = b_objectEnd st.
Proof.
  unfold write_soffset_at. intros H.
  destruct (valid_number P_soffset v && (0 <=? i) && (i + 4 <=? Offset st)) eqn:E;
    [|discriminate].
  apply andb_true_iff in E as [E E3]. apply andb_true_iff in E as [_ E2].
  apply Z.leb_le in E2, E3.
  apply Ok_pair_inj in H. destruct H as [_ H]. subst st'.
  split; [|reflexivity]. unfold Offset, with_bytes, blen in *. cbn [b_bytes].
  rewrite !length_app, le_encode_length, length_firstn, length_skipn. lia.
Qed.

(** [WriteVtable] for a table with one slot, unset, on a 4-aligned
    builder: the object is the soffset alone, and the vtable written (or
    reused) keeps the builder 4-aligned. *)
Lemma WriteVtable_empty st oo st' :
  b_vtable st = Some [0] -> Offset st mod 4 = 0 -> WriteVtable st = Ok (oo, st') ->
  oo = Offset st + 4 /\ Offset st' mod 4 = 0 /\ b_objectEnd st' = b_objectEnd st.
Proof.
  intros Hvt Ha H. unfold WriteVtable in H. binv H.
  apply PrependSOffsetTRelative_aligned in H0; [|exact Ha].
  destruct H0 as [_ Hx1]. bnorm.
  pose proof (extends_Offset _ _ _ Hx1) as Ho0. rewrite blen_encode in Ho0.
  change (Z.of_nat 4) with 4 in Ho0.
  destruct Hx1 as (_ & Hvt0 & Hoe0 & _ & _).
  rewrite Hvt0, Hvt in H. change (rev [0]) with [0] in H. cbn [vt_key Z.eqb] in H.
  assert (Ha0 : Offset st0 mod 4 = 0) by (rewrite Ho0, Zplus_mod, Ha; reflexivity).
  destruct (vt_lookup [] (b_vtables st0)) as [vt2|].
  - binv H. bnorm.
    match goal with Hw : write_soffset_at _ _ _ = Ok _ |- _ =>
      destruct (write_soffset_at_size _ _ _ _ _ Hw) as [Hs1 Hs2] end.
    unfold clear_vtable, Offset in *. cbn [b_bytes b_objectEnd] in *.
    split; [lia|]. split; [congruence|congruence].
  - binv H.
    assert (Hev : Offset st0 mod 2 = 0).
    { rewrite Ho0. pose proof (Z.div_mod (Offset st) 4 ltac:(lia)) as Hdm. rewrite Ha in Hdm.
      rewrite Hdm, Z.add_0_r.
      replace (4 + 4 * (Offset st / 4)) with ((2 * (Offset st / 4) + 2) * 2) by ring.
      apply Z_mod_mult. }
    destruct (write_vt_entries_single _ _ _ _ _ H0 Hev)
      as [(_ & -> & ->) | (He & _)]; [|lia].
    bnorm.
    match goal with
    | H2 : PrependVOffsetT _ st0 = Ok (_, ?s3), H3 : PrependVOffsetT _ ?s3 = Ok (_, ?s4),
      Hw : write_soffset_at _ _ ?s4 = Ok (_, ?s5) |- _ =>
        destruct (PrependVOffsetT_even _ _ _ _ H2 Hev) as [_ Hx2];
        pose proof (extends_Offset _ _ _ Hx2) as Ho2; rewrite blen_encode in Ho2;
        assert (Hev3 : Offset s3 mod 2 = 0) by (rewrite Ho2, Zplus_mod, Hev; reflexivity);
        destruct (PrependVOffsetT_even _ _ _ _ H3 Hev3) as [_ Hx3];
        pose proof (extends_Offset _ _ _ Hx3) as Ho3; rewrite blen_encode in Ho3;
        destruct (write_soffset_at_size _ _ _ _ _ Hw) as [Hs1 Hs2];
        destruct Hx2 as (_ & _ & Ho2' & _), Hx3 as (_ & _ & Ho3' & _)
    end.
    unfold Offset in *. cbn [b_bytes b_objectEnd] in *.
    change (Z.of_nat 2) with 2 in *.
    split; [lia|]. split; [|congruence].
    rewrite Hs1, Ho3, Ho2.
    replace (2 + (2 + blen (b_bytes st0))) with (blen (b_bytes st0) + 1 * 4) by lia.
    rewrite Z_mod_plus_full. exact Ha0.
Qed.

Lemma empty_table_size st t st' :
  Offset st mod 4 = 0 -> (OpInfoStart ;;;; OpInfoEnd) st = Ok (t, st') ->
  t = Offset st + 4 /\ b_objectEnd st' = Offset st /\ Offset st' mod 4 = 0.
Proof.
  intros Ha H. binv H.
  apply OpInfoStart_Ok in H0. destruct H0 as (_ & Hb1 & Hvt1 & Hoe1 & _).
  unfold OpInfoEnd, EndObject in H. binv H. bnorm.
  assert (Ho1 : Offset st0 = Offset st) by (unfold Offset; rewrite Hb1; reflexivity).
  match goal with Hw : WriteVtable _ = Ok _ |- _ =>
    apply WriteVtable_empty in Hw; cbn [b_vtable b_objectEnd] in Hw;
      [| exact Hvt1 | unfold Offset in *; cbn [b_bytes]; congruence] end.
  unfold Offset in H at 1. cbn [b_bytes] in H. fold (Offset st0) in H.
  destruct H as (-> & Ha' & ->). rewrite Hoe1, Ho1. auto.
Qed.

(** X11 (vtable sharing). Two [OpInfo] tables written one after the other
    without the field ([OpInfoStart] then [OpInfoEnd]) from a 4-aligned
    builder share one vtable: neither table is padded, so both have the
    object size 4 ([objectOffset - objectEnd]); the second one finds the
    first one's vtable in the dedup dictionary, records no new one, and its
    soffset points to the same place. *)
Theorem OpInfo_tables_share_vtable st t1 s1 t2 s2 :
  vtables_stored st = true -> Offset st mod 4 = 0 ->
  (OpInfoStart ;;;; OpInfoEnd) st = Ok (t1, s1) ->
  (OpInfoStart ;;;; OpInfoEnd) s1 = Ok (t2, s2) ->
  t1 - b_objectEnd s1 = 4 /\ t2 - b_objectEnd s2 = 4 /\
  b_vtables s2 = b_vtables s1 /\
  exists so1 so2, get_at P_soffset (b_bytes s2) t1 = Ok so1 /\
    get_at P_soffset (b_bytes s2) t2 = Ok so2 /\ t1 + so1 = t2 + so2.
Proof.
  intros Hst Ha H1 H2.
  destruct (empty_table_size _ _ _ Ha H1) as (Ht1 & Hoe1 & Ha1).
  destruct (empty_table_size _ _ _ Ha1 H2) as (Ht2 & Hoe2 & _).
  split; [lia|]. split; [lia|].
  destruct (empty_table_Ok _ _ _ Hst H1) as (Hst1 & _ & so1 & Hg1 & Hl1 & _).
  destruct (empty_table_Ok _ _ _ Hst1 H2) as (_ & [X HX] & so2 & Hg2 & _ & Hre).
  destruct Hre as [Hv Hl2]; [congruence|].
  split; [exact Hv|]. exists so1, so2. split; [rewrite HX; apply get_at_app; exact Hg1|].
  split; [exact Hg2|]. congruence.
Qed.

Lemma OpInfo_tables_share_vtable_witness :
  Offset new_Builder mod 4 = 0 /\
  (OpInfoStart ;;;; OpInfoEnd) new_Builder
    = Ok (4, mkBuilder [4; 0; 4; 0; 4; 0; 0; 0] None 0 4 [([], 8)] false false) /\
  (OpInfoStart ;;;; OpInfoEnd) (mkBuilder [4; 0; 4; 0; 4; 0; 0; 0] None 0 4 [([], 8)] false false)
    = Ok (12, mkBuilder [252; 255; 255; 255; 4; 0; 4; 0; 4; 0; 0; 0] None 8 4 [([], 8)] false false) /\
  4 - 0 = 4 /\ 12 - 8 = 4 /\ [(@nil Z, 8)] = [(@nil Z, 8)] /\
  exists so1 so2, get_at P_soffset [252; 255; 255; 255; 4; 0; 4; 0; 4; 0; 0; 0] 4 = Ok so1 /\
    get_at P_soffset [252; 255; 255; 255; 4; 0; 4; 0; 4; 0; 0; 0] 12 = Ok so2 /\
    4 + so1 = 12 + so2.
Proof.
  split; [reflexivity|]. split; [vm_compute; reflexivity|]. split; [vm_compute; reflexivity|].
  exact (OpInfo_tables_share_vtable new_Builder 4
           (mkBuilder [4; 0; 4; 0; 4; 0; 0; 0] None 0 4 [([], 8)] false false) 12
           (mkBuilder [252; 255; 255; 255; 4; 0; 4; 0; 4; 0; 0; 0] None 8 4 [([], 8)] false false)
           eq_refl eq_refl ltac:(vm_compute; reflexivity) ltac:(vm_compute; reflexivity)).
Defined.

(** X12 (dictionary invariant). Writing and finishing an [OpInfo] keeps the
    builder's dedup dictionary consistent: every recorded vtable is still
    in the bytes at its offset, so tables written later with the same
    shape are pointed at a correct vtable. *)
Theorem build_OpInfo_keeps_vtables ts fid st0 out st1 :
  vtables_stored st0 = true -> build_OpInfo ts fid st0 = Ok (out, st1) ->
  vtables_stored st1 = true.
Proof.
  intros Hst H. unfold build_OpInfo in H. binv H.
  match goal with
  | Hw : write_OpKernelTypeStrArgs _ _ = Ok (?v, ?sa), Hs : OpInfoStart _ = Ok (_, ?sb),
    Ha : OpInfoAddOpKernelTypeStrArgs _ _ = Ok (_, ?sc), He : OpInfoEnd _ = Ok (?o, ?sd),
    Hf : Finish _ _ _ = Ok _ |- _ =>
      rename v into V, sa into sA, sb into sB, sc into sC, o into oo, sd into sD;
      apply write_vec_Ok in Hw; apply OpInfoStart_Ok in Hs;
      rename Ha into Hadd; rename He into Hend; rename Hf into Hfin;
      destruct Hw as (_ & _ & Hvs1 & [X1 Hb1] & HV & Ha1 & Hlen & _);
      destruct Hs as (_ & Hb2 & Hvt2 & _ & Hvs2 & _)
  end.
  pose proof (get_at_bounds _ _ _ _ Hlen) as HVb. cbn [bytewidth] in HVb.
  assert (Ho2 : Offset sB = V) by (unfold Offset; rewrite Hb2; symmetry; exact HV).
  apply OpInfoAdd_Ok in Hadd; [| lia | rewrite Ho2; exact Ha1 | exact Hvt2].
  destruct Hadd as (_ & Hb3 & _ & Hvt3 & _ & Hvs3 & _).
  assert (HoC : Offset sC = V + 4).
  { unfold Offset. rewrite Hb3, blen_app, blen_encode. fold (Offset sB). rewrite Ho2.
    simpl Z.of_nat. lia. }
  rewrite Ho2 in Hvt3.
  assert (HstC : vtables_stored sC = true).
  { apply (vtables_stored_app st0 _ (le_encode 4 (Offset sB - V + 4) ++ X1)).
    - rewrite Hb3, Hb2, Hb1, app_assoc. reflexivity.
    - congruence.
    - exact Hst. }
  apply OpInfoEnd_stored with (e := V + 4) in Hend;
    [| exact Hvt3 | rewrite HoC, Zplus_mod, Ha1; reflexivity | exact HstC].
  destruct (Finish_state _ _ _ _ _ Hfin) as [Hb5 Hvs5].
  destruct (Finish_Ok _ _ _ _ _ Hfin) as (P & Hout & _).
  apply (vtables_stored_app sD _ (le_encode 4 (blen out - oo) ++ P)); [|exact Hvs5|exact Hend].
  rewrite Hb5, Hout at 1. rewrite app_assoc. reflexivity.
Qed.

Lemma build_OpInfo_keeps_vtables_witness :
  exists ts st0 out st1,
    three_empty_tables new_Builder = Ok (ts, st0) /\
    b_vtables st0 = [([], 8)] /\ vtables_stored st0 = true /\
    build_OpInfo ts None st0 = Ok (out, st1) /\
    length (b_vtables st1) = 2%nat /\ vtables_stored st1 = true.
Proof.
  do 4 eexists.
  split; [cbv; reflexivity|].
  split; [reflexivity|].
  assert (Hv : vtables_stored (mkBuilder [248; 255; 255; 255; 252; 255; 255; 255; 4; 0; 4; 0; 4; 0; 0; 0]
                 None 12 4 [([], 8)] false false) = true) by (vm_compute; reflexivity).
  split; [exact Hv|].
  assert (Hb : build_OpInfo [4; 12; 16] None
                 (mkBuilder [248; 255; 255; 255; 252; 255; 255; 255; 4; 0; 4; 0; 4; 0; 0; 0]
                    None 12 4 [([], 8)] false false)
               = Ok (ltac:(let v := eval vm_compute in
                             (match build_OpInfo [4; 12; 16] None
                                (mkBuilder [248; 255; 255; 255; 252; 255; 255; 255; 4; 0; 4; 0; 4; 0; 0; 0]
                                   None 12 4 [([], 8)] false false) with
                              | Ok r => r | Err _ => ([], new_Builder) end) in exact v)))
    by (vm_compute; reflexivity).
  split; [exact Hb|].
  split; [reflexivity|].
  exact (build_OpInfo_keeps_vtables _ _ _ _ _ Hv Hb).
Defined.
